(** * A storefront backend (index.js): catalog, accounts and image intake

  A shallow embedding of the request handlers of [index.js].  Each
  Express route is a function from the request and the database to the
  new database and the response; the collections are lists in insertion
  order.  The libraries the handlers call (Node's [path], [RegExp],
  multer, Mongoose, bcrypt, jsonwebtoken) are modelled just as far as
  the handlers use them; what cannot be written down as a function of
  its arguments (the JSON parser, the password hash, the conversion of
  text to numbers) is a field of the class [Platform]. *)

From Stdlib Require Import Ascii String Floats.
From stdpp Require Import gmap strings list fin_maps pretty.

Set Warnings "-register-all".

Local Open Scope string_scope.
Local Open Scope list_scope.

(** ** JavaScript strings *)

(** A [string] holds the UTF-8 bytes of a JavaScript string. *)
Module JsString.

Definition chars (s : string) : list ascii := list_ascii_of_string s.
Definition of_chars (l : list ascii) : string := string_of_list_ascii l.

(** [String.prototype.toLowerCase], on the ASCII range. *)
Definition lower_char (c : ascii) : ascii :=
  let n := nat_of_ascii c in
  if (65 <=? n)%nat && (n <=? 90)%nat then ascii_of_nat (n + 32) else c.

Fixpoint toLowerCase (s : string) : string :=
  match s with
  | EmptyString => EmptyString
  | String c r => String (lower_char c) (toLowerCase r)
  end.

(** [s.includes(pat)]: [pat] occurs in [s] as a contiguous run. *)
Fixpoint includes (pat s : string) : bool :=
  String.prefix pat s ||
  match s with
  | EmptyString => false
  | String _ r => includes pat r
  end.

(** [String.prototype.trim] strips the white space and the line
    terminators of ECMAScript from both ends.  They are, by their UTF-8
    bytes: U+0009 to U+000D and U+0020 in one byte; U+00A0 in two; U+1680,
    U+2000 to U+200A, U+2028, U+2029, U+202F, U+205F, U+3000 and U+FEFF in
    three. *)
Definition white1 (a : nat) : bool :=
  (a =? 32)%nat || ((9 <=? a)%nat && (a <=? 13)%nat).

Definition white2 (a b : nat) : bool :=
  (a =? 194)%nat && (b =? 160)%nat.

Definition white3 (a b c : nat) : bool :=
  ((a =? 225)%nat && (b =? 154)%nat && (c =? 128)%nat) ||
  ((a =? 226)%nat && (b =? 128)%nat &&
   (((128 <=? c)%nat && (c <=? 138)%nat) || (c =? 168)%nat ||
    (c =? 169)%nat || (c =? 175)%nat)) ||
  ((a =? 226)%nat && (b =? 129)%nat && (c =? 159)%nat) ||
  ((a =? 227)%nat && (b =? 128)%nat && (c =? 128)%nat) ||
  ((a =? 239)%nat && (b =? 187)%nat && (c =? 191)%nat).

(** The list without the white space it starts with; [back] is set when
    the list is a text read from its end, so that the bytes of a
    character come last byte first. *)
Fixpoint drop_white (back : bool) (l : list ascii) : list ascii :=
  match l with
  | [] => []
  | x :: r1 =>
      let a := nat_of_ascii x in
      if white1 a then drop_white back r1
      else
        match r1 with
        | [] => l
        | y :: r2 =>
            let b := nat_of_ascii y in
            if (if back then white2 b a else white2 a b) then
              drop_white back r2
            else
              match r2 with
              | [] => l
              | z :: r3 =>
                  let c := nat_of_ascii z in
                  if (if back then white3 c b a else white3 a b c) then
                    drop_white back r3
                  else l
              end
        end
  end.

Definition trim (s : string) : string :=
  of_chars (rev (drop_white true (rev (drop_white false (chars s))))).

End JsString.

(** ** Node's [path.extname] (POSIX) *)

Module Path.
Import JsString.

Definition slash : ascii := "/"%char.
Definition dot : ascii := "."%char.

Fixpoint drop_slashes (l : list ascii) : list ascii :=
  match l with
  | c :: r => if Ascii.eqb c slash then drop_slashes r else l
  | [] => []
  end.

Fixpoint until (stop : ascii) (l : list ascii) : list ascii :=
  match l with
  | c :: r => if Ascii.eqb c stop then [] else c :: until stop r
  | [] => []
  end.

Fixpoint after (stop : ascii) (l : list ascii) : option (list ascii) :=
  match l with
  | c :: r => if Ascii.eqb c stop then Some r else after stop r
  | [] => None
  end.

(** The last portion of the path, reversed: trailing separators are
    skipped and the portion ends at the separator before it. *)
Definition rev_basename (p : string) : list ascii :=
  until slash (drop_slashes (rev (chars p))).

(** From the last dot of the last portion to its end; empty when the
    portion has no dot, when its only dot is its first character, and
    for the portion [".."]. *)
Definition extname (p : string) : string :=
  let b := rev_basename p in
  match after dot b with
  | None => ""
  | Some [] => ""
  | Some before =>
      let ext := until dot b in
      match ext, before with
      | [], [c] => if Ascii.eqb c dot then "" else of_chars [dot]
      | _, _ => of_chars (dot :: rev ext)
      end
  end.

End Path.


(** ** JavaScript values *)

(** The values [JSON.parse] returns.  Numbers are IEEE doubles. *)
Inductive json :=
| JNull
| JBool (b : bool)
| JNum (x : float)
| JStr (s : string)
| JArr (items : list json)
| JObj (fields : list (string * json)).

(** A JavaScript value that may be [undefined]: a property of a request
    body, or a field of a document, which is absent when it is [None]. *)
Definition jsval := option json.

(** A text field of a request body as a JavaScript value. *)
Definition text (o : option string) : jsval := JStr <$> o.

(** Truthiness of a text field: [undefined] and [""] are falsy. *)
Definition truthy (o : option string) : bool :=
  match o with
  | Some s => negb (String.eqb s "")
  | None => false
  end.

(** What the runtime and the libraries compute that the model leaves
    open. *)
Class Platform := {
  (** [JSON.parse]; [None] when it throws a [SyntaxError]. *)
  JSON_parse : string -> option json;
  (** [Number(s)] for a string; [NaN] when [s] is not a numeric literal. *)
  Number_of_string : string -> float;
  (** [bcrypt.hash(data, rounds)] with the salt it generated. *)
  bcrypt_hash : string -> nat -> string -> string;
  (** [bcrypt.compare(data, encrypted)]. *)
  bcrypt_compare : string -> string -> bool;
  (** The empty text is not JSON. *)
  JSON_parse_empty : JSON_parse "" = None;
  (** What the [minimize] option of a Mongoose schema, on by default,
      leaves of a value when a document is turned into JSON; [None] when
      it leaves the key out. *)
  minimize : json -> option json;
  (** An empty object is left out. *)
  minimize_empty : minimize (JObj []) = None
}.

(** ** multer *)

Module Multer.

(** A file part of a multipart request, as multer hands it to the file
    filter and to the storage engine.  [clock] is the value of
    [Date.now()] when the storage engine names the file. *)
Record Part := {
  fieldname : string;
  originalname : string;
  mimetype : string;
  clock : Z
}.

(** A stored file: an entry of [req.files], or [req.file]. *)
Record File := {
  part : Part;
  filename : string
}.

Inductive Error :=
| LIMIT_UNEXPECTED_FILE (field : string)
| FilterError (message : string).

(** What a file filter tells multer through its callback. *)
Inductive Verdict :=
| Accept
| Refuse (message : string).

Inductive outcome (A : Type) :=
| Next (a : A)
| Abort (e : Error).
Arguments Next {A} a.
Arguments Abort {A} e.

Section Middleware.
Variable fileFilter : Part -> Verdict.
Variable storage_filename : Part -> string.

(** The files of one field, in the order they arrive: a part of another
    field, or one more than [left] allows, is an unexpected file; a part
    the filter refuses aborts the request; the others are stored. *)
Fixpoint intake (name : string) (left : nat) (parts : list Part)
  {struct parts} : outcome (list File) :=
  match parts with
  | [] => Next []
  | p :: rest =>
      if negb (String.eqb (fieldname p) name) then
        Abort (LIMIT_UNEXPECTED_FILE (fieldname p))
      else
        match left with
        | O => Abort (LIMIT_UNEXPECTED_FILE (fieldname p))
        | S left' =>
            match fileFilter p with
            | Refuse message => Abort (FilterError message)
            | Accept =>
                match intake name left' rest with
                | Next files =>
                    Next ({| part := p; filename := storage_filename p |} :: files)
                | Abort e => Abort e
                end
            end
        end
  end.

(** [upload.array(name, maxCount)]: [req.files] is left undefined when
    the request is not multipart. *)
Definition array (name : string) (maxCount : nat)
  (multipart : option (list Part)) : outcome (option (list File)) :=
  match multipart with
  | None => Next None
  | Some parts =>
      match intake name maxCount parts with
      | Next files => Next (Some files)
      | Abort e => Abort e
      end
  end.

(** [upload.single(name)]: [req.file] is the one file, if any. *)
Definition single (name : string) (multipart : option (list Part))
  : outcome (option File) :=
  match multipart with
  | None => Next None
  | Some parts =>
      match intake name 1 parts with
      | Next files => Next (head files)
      | Abort e => Abort e
      end
  end.

End Middleware.

Definition error_message (e : Error) : string :=
  match e with
  | LIMIT_UNEXPECTED_FILE _ => "Unexpected field"
  | FilterError message => message
  end.

End Multer.

(** ** index.js: storage and file filter *)

(** [filename: Date.now() + path.extname(file.originalname)] *)
Definition storage_filename (file : Multer.Part) : string :=
  pretty (Multer.clock file) +:+ Path.extname (Multer.originalname file).

(** [/jpeg|jpg|png|gif/.test(s)]: the expression is not anchored, so it
    matches when one of the four words occurs anywhere in [s]. *)
Definition allowedTypes_test (s : string) : bool :=
  JsString.includes "jpeg" s || JsString.includes "jpg" s ||
  JsString.includes "png" s || JsString.includes "gif" s.

Definition fileFilter (file : Multer.Part) : Multer.Verdict :=
  let extname :=
    allowedTypes_test
      (JsString.toLowerCase (Path.extname (Multer.originalname file))) in
  let mimetype := allowedTypes_test (Multer.mimetype file) in
  if extname && mimetype then Multer.Accept
  else Multer.Refuse "Only images are allowed".

Definition upload_single := Multer.single fileFilter storage_filename.
Definition upload_array := Multer.array fileFilter storage_filename.

(** [`/uploads/${file.filename}`] *)
Definition upload_path (file : Multer.File) : string :=
  "/uploads/" +:+ Multer.filename file.

(** ** Mongoose models *)

(** An [ObjectId]; the database hands them out in sequence. *)
Definition ObjectId := nat.

Definition ObjectId_toString (id : ObjectId) : string := pretty id.

(** What Mongoose does with a key of an update whose value is
    [undefined].  Releases up to 5 send it to the server, which stores
    [null]; releases from 6 on drop the key, so the stored field stays as
    it was.  The handlers are the same under both. *)
Inductive undefined_in_update :=
| WrittenAsNull
| Dropped.

(** Casting of text to the type of a schema path; [None] is a
    [CastError]. *)
Module Cast.

(** [String]: a string is kept, [undefined] stays absent. *)
Definition to_string (o : option string) : jsval := text o.

(** [String] with [trim: true]. *)
Definition to_trimmed (o : option string) : jsval :=
  text (JsString.trim <$> o).

(** [Number]: the empty string is [null], any other string is
    [Number(s)], which must not be [NaN]. *)
Definition to_number `{Platform} (o : option string) : option jsval :=
  match o with
  | None => Some None
  | Some s =>
      if String.eqb s "" then Some (Some JNull)
      else
        let x := Number_of_string s in
        if PrimFloat.is_nan x then None else Some (Some (JNum x))
  end.

(** [Boolean]: the values Mongoose converts to [true] and to [false];
    [null] and [undefined] pass. *)
Definition to_boolean (v : jsval) : option jsval :=
  match v with
  | Some (JBool b) => Some (Some (JBool b))
  | Some (JStr s) =>
      if bool_decide (s ∈ ["true"; "1"; "yes"]) then Some (Some (JBool true))
      else if bool_decide (s ∈ ["false"; "0"; "no"]) then
        Some (Some (JBool false))
      else None
  | Some (JNum x) =>
      if PrimFloat.eqb x 1 then Some (Some (JBool true))
      else if PrimFloat.eqb x 0 then Some (Some (JBool false))
      else None
  | Some JNull => Some (Some JNull)
  | None => Some None
  | Some (JArr _) | Some (JObj _) => None
  end.

End Cast.

(** The [required] validator of a [String] path: a non-empty string. *)
Definition required_string (v : jsval) : bool :=
  match v with
  | Some (JStr s) => negb (String.eqb s "")
  | _ => false
  end.

(** The [required] validator of a [Number] path. *)
Definition required_number (v : jsval) : bool :=
  match v with
  | Some (JNum _) => true
  | _ => false
  end.

(** [DataSchema] *)
Module Data.

Record doc := {
  _id : ObjectId;
  title : jsval;
  description : jsval;
  imageUrl : jsval
}.

End Data.

(** [ProductSchema], with [timestamps: true] *)
Module Product.

Record doc := {
  _id : ObjectId;
  name : jsval;
  description : jsval;
  new_price : jsval;
  old_price : jsval;
  images : list string;
  category : jsval;
  data : jsval;
  available : jsval;
  createdAt : Z;
  updatedAt : Z
}.

(** The object a handler passes to [new Product(...)]. *)
Record init := {
  init_name : option string;
  init_description : option string;
  init_new_price : option string;
  init_old_price : option string;
  init_category : option string;
  init_images : list string;
  init_data : jsval;
  init_available : jsval
}.

(** [new Product(obj)]: every path is cast, [old_price] and [data]
    and [available] get their defaults when undefined; [None] when a
    cast fails. *)
Definition create `{Platform} (id : ObjectId) (now : Z) (o : init)
  : option doc :=
  price ← Cast.to_number (init_new_price o);
  previous ← Cast.to_number (init_old_price o);
  flag ← Cast.to_boolean (init_available o);
  Some {|
    _id := id;
    name := Cast.to_trimmed (init_name o);
    description := Cast.to_string (init_description o);
    new_price := price;
    old_price := match previous with
                 | None => Some (JNum 0)
                 | v => v
                 end;
    images := init_images o;
    category := Cast.to_string (init_category o);
    data := match init_data o with
            | None => Some (JObj [])
            | v => v
            end;
    available := match flag with
                 | None => Some (JBool true)
                 | v => v
                 end;
    createdAt := now;
    updatedAt := now
  |}.

(** Validation on [save]: the paths marked [required: true]. *)
Definition validate (p : doc) : bool :=
  required_string (name p) && required_string (description p) &&
  required_number (new_price p) && required_string (category p) &&
  forallb (fun image => negb (String.eqb image "")) (images p).

(** [toJSON], which [res.json] applies to a document: the schema has
    [minimize] on, so a [data] that is an empty object is not sent.  The
    other paths hold texts, numbers, booleans and an array, which
    [minimize] keeps. *)
Definition toJSON `{Platform} (p : doc) : doc :=
  {| _id := _id p;
     name := name p;
     description := description p;
     new_price := new_price p;
     old_price := old_price p;
     images := images p;
     category := category p;
     data := data p ≫= minimize;
     available := available p;
     createdAt := createdAt p;
     updatedAt := updatedAt p |}.

(** The update a handler passes to [findByIdAndUpdate].  The six scalar
    keys are always there, and [None] is the value [undefined]; the keys
    [images] and [data] are there only when the handler added them, and
    [None] is a key that is not there. *)
Record update := {
  set_name : option string;
  set_description : option string;
  set_new_price : option string;
  set_old_price : option string;
  set_category : option string;
  set_available : jsval;
  set_images : option (list string);
  set_data : option json
}.

(** The update after casting: what the [$set] sent to the server holds,
    before the keys that are [undefined] are dealt with. *)
Record cast := {
  cast_name : jsval;
  cast_description : jsval;
  cast_new_price : jsval;
  cast_old_price : jsval;
  cast_category : jsval;
  cast_available : jsval;
  cast_images : option (list string);
  cast_data : option json
}.

(** Every value of the update is cast to the type of its path; [None]
    when a cast fails. *)
Definition castUpdate `{Platform} (u : update) : option cast :=
  price ← Cast.to_number (set_new_price u);
  previous ← Cast.to_number (set_old_price u);
  flag ← Cast.to_boolean (set_available u);
  Some {|
    cast_name := Cast.to_trimmed (set_name u);
    cast_description := Cast.to_string (set_description u);
    cast_new_price := price;
    cast_old_price := previous;
    cast_category := Cast.to_string (set_category u);
    cast_available := flag;
    cast_images := set_images u;
    cast_data := set_data u
  |}.

(** [$set] of one cast value on one path. *)
Definition assign (policy : undefined_in_update) (old new : jsval) : jsval :=
  match new with
  | None =>
      match policy with
      | WrittenAsNull => Some JNull
      | Dropped => old
      end
  | v => v
  end.

(** The cast update applied to one document; [timestamps] sets
    [updatedAt]. *)
Definition apply (policy : undefined_in_update) (now : Z) (c : cast)
  (p : doc) : doc :=
  {|
    _id := _id p;
    name := assign policy (name p) (cast_name c);
    description := assign policy (description p) (cast_description c);
    new_price := assign policy (new_price p) (cast_new_price c);
    old_price := assign policy (old_price p) (cast_old_price c);
    images := default (images p) (cast_images c);
    category := assign policy (category p) (cast_category c);
    data := match cast_data c with
            | Some v => Some v
            | None => data p
            end;
    available := assign policy (available p) (cast_available c);
    createdAt := createdAt p;
    updatedAt := now
  |}.

End Product.

(** The [Users] model *)
Module Users.

Record doc := {
  _id : ObjectId;
  name : option string;
  email : option string;
  password : string;
  cartDate : gmap nat Z;
  date : Z
}.

End Users.

(** ** The database *)

(** The collections hold the documents as Mongoose hands them to the
    handlers: a [data] that is an empty object, which [minimize] keeps
    out of the stored record, reads back as the empty object of the
    schema default.  What a client sees of a document is its
    [Product.toJSON]. *)
Record Db := {
  datas : list Data.doc;
  products : list Product.doc;
  users : list Users.doc;
  next_id : ObjectId
}.

Definition empty_db : Db :=
  {| datas := []; products := []; users := []; next_id := 0 |}.

Module Store.

(** [newData.save()] *)
Definition save_data (d : Data.doc) (db : Db) : Db :=
  {| datas := datas db ++ [d];
     products := products db;
     users := users db;
     next_id := S (next_id db) |}.

(** [product.save()]; [None] when validation fails. *)
Definition save_product (p : Product.doc) (db : Db) : option Db :=
  if Product.validate p then
    Some {| datas := datas db;
            products := products db ++ [p];
            users := users db;
            next_id := S (next_id db) |}
  else None.

(** [user.save()] *)
Definition save_user (u : Users.doc) (db : Db) : Db :=
  {| datas := datas db;
     products := products db;
     users := users db ++ [u];
     next_id := S (next_id db) |}.

Definition with_products (l : list Product.doc) (db : Db) : Db :=
  {| datas := datas db;
     products := l;
     users := users db;
     next_id := next_id db |}.

(** [Product.findById]: the first document with that id. *)
Definition findById (id : ObjectId) (l : list Product.doc)
  : option Product.doc :=
  List.find (fun p => Nat.eqb (Product._id p) id) l.

(** The first document with that id, replaced by [f] of it. *)
Fixpoint replace_first (id : ObjectId) (f : Product.doc -> Product.doc)
  (l : list Product.doc) : list Product.doc :=
  match l with
  | [] => []
  | p :: rest =>
      if Nat.eqb (Product._id p) id then f p :: rest
      else p :: replace_first id f rest
  end.

(** The first document with that id, removed. *)
Fixpoint remove_first (id : ObjectId) (l : list Product.doc)
  : list Product.doc :=
  match l with
  | [] => []
  | p :: rest =>
      if Nat.eqb (Product._id p) id then rest
      else p :: remove_first id rest
  end.

(** [Users.findOne({ email })]: the first user with that email. *)
Definition findOne_email (email : option string) (l : list Users.doc)
  : option Users.doc :=
  List.find (fun u => bool_decide (Users.email u = email)) l.

End Store.

(** ** jsonwebtoken *)

Module Jwt.

(** A signed token, as what a verifier reads from it: the claims, and
    the key the signature was made with. *)
Record token := {
  user_id : string;
  iat : Z;
  exp : Z;
  key : string
}.

Fixpoint digits (acc : option N) (l : list ascii) : option N * list ascii :=
  match l with
  | [] => (acc, [])
  | c :: rest =>
      match Ascii.is_nat c with
      | Some d => digits (Some (10 * default 0%N acc + N.of_nat d)%N) rest
      | None => (acc, l)
      end
  end.

(** The [ms] package on a whole number followed by a unit: the number
    of milliseconds; [None] when the text is not of that form. *)
Definition ms (span : string) : option Z :=
  match digits None (JsString.chars span) with
  | (Some n, unit) =>
      let per :=
        match JsString.of_chars unit with
        | "ms" => Some 1
        | "s" => Some 1000
        | "m" => Some 60000
        | "h" => Some 3600000
        | "d" => Some 86400000
        | _ => None
        end%Z in
      (fun k => Z.of_N n * k)%Z <$> per
  | (None, _) => None
  end.

(** [jwt.sign({ user: { id } }, secret, { expiresIn })] at time [now]
    (milliseconds); [None] when [expiresIn] is not a time span, which
    makes [sign] throw. *)
Definition sign (id secret expiresIn : string) (now : Z) : option token :=
  let timestamp := (now `div` 1000)%Z in
  span ← ms expiresIn;
  Some {| user_id := id;
          iat := timestamp;
          exp := (timestamp + span `div` 1000)%Z;
          key := secret |}.

Definition lifetime (t : token) : Z := (exp t - iat t)%Z.

End Jwt.

(** ** Requests and responses *)

(** A request whose body fields are texts and whose [:id] is a
    well-formed id.  A JSON or an extended urlencoded body can also carry
    objects and arrays, and a path any text as its id; such requests are
    outside the model. *)
Record Request := {
  (** [req.body]: the text fields of the form, or of the JSON body *)
  body : gmap string string;
  (** the file parts, when the request is multipart *)
  multipart : option (list Multer.Part);
  (** [req.params.id] *)
  params_id : ObjectId;
  (** [Date.now()] while the handler runs *)
  now : Z;
  (** the salt [bcrypt.hash] generates for this request *)
  salt : string
}.

(** The JSON bodies the handlers send: [{ success: true, ... }] with one
    more key, or [{ success: false, error }]. *)
Inductive Body :=
| ok_data (data : Data.doc)
| ok_datas (data : list Data.doc)
| ok_product (product : Product.doc)
| ok_products (products : list Product.doc)
| ok_token (token : Jwt.token)
| failure (error : string).

(** [res.status(n).json(b)], or an error a middleware passed on, which
    Express answers itself. *)
Inductive Response :=
| Json (status : nat) (b : Body)
| Unhandled (e : Multer.Error).

Definition status_of (r : Response) : nat :=
  match r with
  | Json status _ => status
  | Unhandled _ => 500
  end.

(** The answer as the client receives it: [res.json] turns every
    product into its JSON. *)
Definition sent `{Platform} (r : Response) : Response :=
  match r with
  | Json status (ok_product product) =>
      Json status (ok_product (Product.toJSON product))
  | Json status (ok_products products) =>
      Json status (ok_products (Product.toJSON <$> products))
  | _ => r
  end.

(** ** index.js: the routes *)

Section Routes.
Context `{P : Platform}.
Variable policy : undefined_in_update.

(** [POST /api/data] *)
Definition post_api_data (req : Request) (db : Db) : Db * Response :=
  match upload_single "image" (multipart req) with
  | Multer.Abort e => (db, Unhandled e)
  | Multer.Next file =>
      let newData :=
        {| Data._id := next_id db;
           Data.title := Cast.to_string (body req !! "title");
           Data.description := Cast.to_string (body req !! "description");
           Data.imageUrl :=
             match file with
             | Some f => Some (JStr (upload_path f))
             | None => Some JNull
             end |} in
      (Store.save_data newData db, Json 201 (ok_data newData))
  end.

(** [GET /api/data].  The store is taken to answer; the 500 of the
    [catch], for a store that fails, is outside the model. *)
Definition get_api_data (req : Request) (db : Db) : Db * Response :=
  (db, Json 200 (ok_datas (datas db))).

(** [JSON.parse] under [try], with [{}] in the [catch]. *)
Definition parse_or_empty (s : string) : json :=
  match JSON_parse s with
  | Some v => v
  | None => JObj []
  end.

(** [parsedData] of [POST /products] *)
Definition parsedData (req : Request) : json :=
  match body req !! "data" with
  | Some s => if truthy (Some s) then parse_or_empty s else JObj []
  | None => JObj []
  end.

(** [req.body.available !== undefined ? req.body.available : true] *)
Definition available_or_true (req : Request) : jsval :=
  match body req !! "available" with
  | Some s => Some (JStr s)
  | None => Some (JBool true)
  end.

(** The object [POST /products] passes to [new Product]. *)
Definition product_init (images : list string) (req : Request)
  : Product.init :=
  {| Product.init_name := body req !! "name";
     Product.init_description := body req !! "description";
     Product.init_new_price := body req !! "new_price";
     Product.init_old_price := body req !! "old_price";
     Product.init_category := body req !! "category";
     Product.init_images := images;
     Product.init_data := Some (parsedData req);
     Product.init_available := available_or_true req |}.

(** [POST /products], after [upload.array("images", 50)] *)
Definition post_products_handler (files : option (list Multer.File))
  (req : Request) (db : Db) : Db * Response :=
  let images :=
    match files with
    | Some fs => upload_path <$> fs
    | None => []
    end in
  match Product.create (next_id db) (now req) (product_init images req) with
  | Some product =>
      match Store.save_product product db with
      | Some db' => (db', Json 201 (ok_product product))
      | None => (db, Json 500 (failure "Something went wrong"))
      end
  | None => (db, Json 500 (failure "Something went wrong"))
  end.

Definition post_products (req : Request) (db : Db) : Db * Response :=
  match upload_array "images" 50 (multipart req) with
  | Multer.Abort e => (db, Unhandled e)
  | Multer.Next files => post_products_handler files req db
  end.

(** [GET /products], for a store that answers; what the client is
    sent is [sent] of this answer. *)
Definition get_products (req : Request) (db : Db) : Db * Response :=
  (db, Json 200 (ok_products (products db))).

(** [DELETE /products/:id], for a well-formed id and a store that
    answers.  The 500 of the [catch], which an id that is no [ObjectId]
    or a failing store leads to, is outside the model. *)
Definition delete_products (req : Request) (db : Db) : Db * Response :=
  match Store.findById (params_id req) (products db) with
  | None => (db, Json 404 (failure "Product not found"))
  | Some product =>
      (Store.with_products
         (Store.remove_first (params_id req) (products db)) db,
       Json 200 (ok_product product))
  end.

(** [updatedData] of [PUT /products/:id] *)
Definition updatedData (files : option (list Multer.File)) (req : Request)
  : Product.update :=
  {| Product.set_name := body req !! "name";
     Product.set_description := body req !! "description";
     Product.set_new_price := body req !! "new_price";
     Product.set_old_price := body req !! "old_price";
     Product.set_category := body req !! "category";
     Product.set_available := available_or_true req;
     Product.set_images :=
       match files with
       | Some fs =>
           if (0 <? length fs)%nat then Some (upload_path <$> fs) else None
       | None => None
       end;
     Product.set_data :=
       match body req !! "data" with
       | Some s => if truthy (Some s) then Some (parse_or_empty s) else None
       | None => None
       end |}.

(** [Product.findByIdAndUpdate(id, update, { new: true })]: the outer
    [None] is a [CastError], the inner one is no document with that
    id. *)
Definition findByIdAndUpdate (id : ObjectId) (u : Product.update) (now : Z)
  (db : Db) : option (Db * option Product.doc) :=
  match Product.castUpdate u with
  | None => None
  | Some c =>
      match Store.findById id (products db) with
      | None => Some (db, None)
      | Some p =>
          let p' := Product.apply policy now c p in
          Some (Store.with_products
                  (Store.replace_first id (fun _ => p') (products db)) db,
                Some p')
      end
  end.

(** [PUT /products/:id], after [upload.array("images", 50)] *)
Definition put_products_handler (files : option (list Multer.File))
  (req : Request) (db : Db) : Db * Response :=
  match findByIdAndUpdate (params_id req) (updatedData files req)
          (now req) db with
  | None => (db, Json 500 (failure "Something went wrong"))
  | Some (db', None) => (db', Json 404 (failure "Product not found"))
  | Some (db', Some product) => (db', Json 200 (ok_product product))
  end.

Definition put_products (req : Request) (db : Db) : Db * Response :=
  match upload_array "images" 50 (multipart req) with
  | Multer.Abort e => (db, Unhandled e)
  | Multer.Next files => put_products_handler files req db
  end.

(** [cart] of [POST /signup], after [n] rounds of
    [for (let i = 0; i < 300; i++) cart[i] = 0]. *)
Definition cart_loop (n : nat) : gmap nat Z :=
  foldl (fun cart i => <[i := 0%Z]> cart) ∅ (seq 0 n).

(** [new Users({ name: username, email, password: hashedPassword,
    cartDate: cart })] *)
Definition new_user (req : Request) (db : Db) (hashedPassword : string)
  : Users.doc :=
  {| Users._id := next_id db;
     Users.name := body req !! "username";
     Users.email := body req !! "email";
     Users.password := hashedPassword;
     Users.cartDate := cart_loop 300;
     Users.date := now req |}.

(** [jwt.sign({ user: { id: user._id.toString() } }, "secret_ecom",
    { expiresIn: "1h" })] and the response that carries the token; a
    [sign] that throws is answered in the [catch]. *)
Definition issue_token (user : Users.doc) (req : Request) : Response :=
  match Jwt.sign (ObjectId_toString (Users._id user)) "secret_ecom" "1h"
          (now req) with
  | Some token => Json 200 (ok_token token)
  | None => Json 500 (failure "Server error")
  end.

(** [POST /signup].  [bcrypt.hash] rejects when the password is
    undefined, which the [catch] answers. *)
Definition post_signup (req : Request) (db : Db) : Db * Response :=
  match Store.findOne_email (body req !! "email") (users db) with
  | Some existingUser => (db, Json 400 (failure "Email already exists"))
  | None =>
      match body req !! "password" with
      | None => (db, Json 500 (failure "Server error"))
      | Some password =>
          let hashedPassword := bcrypt_hash password 10 (salt req) in
          let user := new_user req db hashedPassword in
          (Store.save_user user db, issue_token user req)
      end
  end.

(** [POST /login].  [bcrypt.compare] rejects when the password is
    undefined, which the [catch] answers. *)
Definition post_login (req : Request) (db : Db) : Db * Response :=
  match Store.findOne_email (body req !! "email") (users db) with
  | None => (db, Json 400 (failure "Invalid Email"))
  | Some user =>
      match body req !! "password" with
      | None => (db, Json 500 (failure "Server error"))
      | Some password =>
          if bcrypt_compare password (Users.password user) then
            (db, issue_token user req)
          else (db, Json 400 (failure "Invalid Password"))
      end
  end.

(** The routes of the application. *)
Inductive Route :=
| POST_api_data
| GET_api_data
| POST_products
| GET_products
| DELETE_products_id
| PUT_products_id
| POST_signup
| POST_login.

Definition app (route : Route) : Request -> Db -> Db * Response :=
  match route with
  | POST_api_data => post_api_data
  | GET_api_data => get_api_data
  | POST_products => post_products
  | GET_products => get_products
  | DELETE_products_id => delete_products
  | PUT_products_id => put_products
  | POST_signup => post_signup
  | POST_login => post_login
  end.

(** The database after a sequence of requests, served one at a time. *)
Fixpoint run (requests : list (Route * Request)) (db : Db) : Db :=
  match requests with
  | [] => db
  | (route, req) :: rest => run rest (app route req db).1
  end.

End Routes.

(** ** Requests the store accepts *)

(** The text fields of a request pass the casts and the [required]
    validators of [ProductSchema]: [name] is not blank, [description]
    and [category] are not empty, [new_price] is numeric, [old_price] is
    absent, empty or numeric, and [available] is absent or one of the
    texts [Boolean] understands. *)
Definition numeric `{Platform} (s : string) : bool :=
  negb (PrimFloat.is_nan (Number_of_string s)).

Definition creatable `{Platform} (req : Request) : bool :=
  match body req !! "name" with
  | Some s => negb (String.eqb (JsString.trim s) "")
  | None => false
  end &&
  match body req !! "description" with
  | Some s => negb (String.eqb s "")
  | None => false
  end &&
  match body req !! "new_price" with
  | Some s => negb (String.eqb s "") && numeric s
  | None => false
  end &&
  match body req !! "category" with
  | Some s => negb (String.eqb s "")
  | None => false
  end &&
  match body req !! "old_price" with
  | Some s => String.eqb s "" || numeric s
  | None => true
  end &&
  match body req !! "available" with
  | Some s => bool_decide (s ∈ ["true"; "1"; "yes"; "false"; "0"; "no"])
  | None => true
  end.

(** The text fields of a request pass the casts of an update: the prices
    are absent, empty or numeric, and [available] is absent or one of the
    texts [Boolean] understands.  An update runs no validators. *)
Definition updatable `{Platform} (req : Request) : bool :=
  match body req !! "new_price" with
  | Some s => String.eqb s "" || numeric s
  | None => true
  end &&
  match body req !! "old_price" with
  | Some s => String.eqb s "" || numeric s
  | None => true
  end &&
  match body req !! "available" with
  | Some s => bool_decide (s ∈ ["true"; "1"; "yes"; "false"; "0"; "no"])
  | None => true
  end.

(** The number a price text is cast to. *)
Definition price_of `{Platform} (s : string) : json :=
  if String.eqb s "" then JNull else JNum (Number_of_string s).

(** How an update leaves a scalar field: the value the request sent is
    written over the old one; a value the request did not send is
    written as [null] or leaves the old one, by what the library does
    with [undefined]. *)
Definition rebuilt (policy : undefined_in_update) (old : jsval)
  (sent : option json) (new : jsval) : Prop :=
  match sent with
  | Some v => new = Some v
  | None =>
      match policy with
      | WrittenAsNull => new = Some JNull
      | Dropped => new = old
      end
  end.

(** A part that [upload.array("images", 50)] stores: it comes in the
    field [images] and the file filter accepts it. *)
Definition accepted (p : Multer.Part) : bool :=
  String.eqb (Multer.fieldname p) "images" &&
  match fileFilter p with
  | Multer.Accept => true
  | Multer.Refuse _ => false
  end.

(** The file parts attached to a request: none when it is not
    multipart. *)
Definition attached (req : Request) : list Multer.Part :=
  default [] (multipart req).

(** The stored file of a part. *)
Definition stored (p : Multer.Part) : Multer.File :=
  {| Multer.part := p; Multer.filename := storage_filename p |}.

(** A field that an update cleared: [null], or absent. *)
Definition cleared (v : jsval) : Prop := v = Some JNull \/ v = None.

(** No two users share an email. *)
Definition emails_unique (db : Db) : Prop :=
  NoDup (Users.email <$> users db).

(** ** index.js: the CORS policy *)

Definition allowedOrigins : list string :=
  ["http://localhost:3000"; "http://localhost:5173"].

(** [Array.prototype.indexOf] on strings: the first index at which [x]
    occurs, counted from [i], or -1. *)
Fixpoint indexOf_from (i : Z) (x : string) (l : list string) : Z :=
  match l with
  | [] => -1
  | y :: rest => if String.eqb y x then i else indexOf_from (i + 1) x rest
  end.

Definition indexOf (x : string) (l : list string) : Z := indexOf_from 0 x l.

(** What the [origin] function tells the cors middleware:
    [callback(null, true)] or [callback(new Error(...), false)]. *)
Inductive CorsVerdict :=
| CorsAllow
| CorsError (message : string).

(** The [origin] function of the cors options; [None] is a request
    without an [Origin] header. *)
Definition cors_origin (origin : option string) : CorsVerdict :=
  match origin with
  | None => CorsAllow
  | Some o =>
      if negb (truthy (Some o)) then CorsAllow
      else if (indexOf o allowedOrigins =? -1)%Z then
        CorsError "Not allowed by CORS"
      else CorsAllow
  end.

(** ** Numbering of the documents *)

(** The ids of all the documents of a database. *)
Definition ids (db : Db) : list ObjectId :=
  (Data._id <$> datas db) ++ (Product._id <$> products db) ++
  (Users._id <$> users db).

(** No two documents share an id, and every id was handed out before
    [next_id]. *)
Definition well_numbered (db : Db) : Prop :=
  NoDup (ids db) /\ Forall (fun id => id < next_id db) (ids db).

(** A run of characters with no dot and no separator in it. *)
Definition plain (l : list ascii) : Prop :=
  Forall (fun c => c <> Path.dot /\ c <> Path.slash) l.

(** ** A platform to run the model on *)

Module Sample.

Definition quote : string := String (ascii_of_nat 34) "".

(** The text [{"color":"red","size":42}]. *)
Definition red_42 : string :=
  "{" +:+ quote +:+ "color" +:+ quote +:+ ":" +:+ quote +:+ "red" +:+ quote
  +:+ "," +:+ quote +:+ "size" +:+ quote +:+ ":42}".

(** A parser that knows two texts. *)
Definition parse (s : string) : option json :=
  if String.eqb s red_42 then
    Some (JObj [("color", JStr "red"); ("size", JNum 42)])
  else if String.eqb s "{}" then Some (JObj [])
  else None.

(** A stand-in for [minimize]: an object that is left without a key,
    once its own values are minimized, is left out, except as an entry
    of an array. *)
Fixpoint minimize_at (entry : bool) (v : json) : option json :=
  match v with
  | JObj fields =>
      let kept :=
        (fix go (l : list (string * json)) : list (string * json) :=
           match l with
           | [] => []
           | (k, x) :: rest =>
               match minimize_at false x with
               | Some x' => (k, x') :: go rest
               | None => go rest
               end
           end) fields in
      match kept, entry with
      | [], false => None
      | _, _ => Some (JObj kept)
      end
  | JArr items =>
      Some (JArr
              ((fix go (l : list json) : list json :=
                  match l with
                  | [] => []
                  | x :: rest => default x (minimize_at true x) :: go rest
                  end) items))
  | _ => Some v
  end.

(** [Number(s)] for a run of decimal digits; [NaN] otherwise. *)
Definition number (s : string) : float :=
  match Jwt.digits None (JsString.chars s) with
  | (Some n, []) => PrimFloat.of_uint63 (Uint63.of_Z (Z.of_N n))
  | _ => PrimFloat.nan
  end.

(** A stand-in for bcrypt: the salt, a separator and the data. *)
Definition hash (data : string) (rounds : nat) (salt : string) : string :=
  "$2b$" +:+ pretty rounds +:+ "$" +:+ salt +:+ "$" +:+ data.

Fixpoint ends_with (suffix s : string) : bool :=
  String.eqb suffix s ||
  match s with
  | EmptyString => false
  | String _ r => ends_with suffix r
  end.

Definition compare (data encrypted : string) : bool :=
  ends_with ("$" +:+ data) encrypted.

#[export] Instance platform : Platform := {|
  JSON_parse := parse;
  Number_of_string := number;
  bcrypt_hash := hash;
  bcrypt_compare := compare;
  JSON_parse_empty := eq_refl;
  minimize := minimize_at false;
  minimize_empty := eq_refl
|}.

Definition request (fields : list (string * string))
  (parts : option (list Multer.Part)) (id : ObjectId) : Request :=
  {| body := list_to_map fields;
     multipart := parts;
     params_id := id;
     now := 1700000000000;
     salt := "N9qo8uLOickgx2ZMRZoMye" |}.

Definition jpeg (name : string) (clock : Z) : Multer.Part :=
  {| Multer.fieldname := "images";
     Multer.originalname := name;
     Multer.mimetype := "image/jpeg";
     Multer.clock := clock |}.

(** A file that is no image, under a name and a content type that
    contain the words [png] and [gif]. *)
Definition disguised : Multer.Part :=
  {| Multer.fieldname := "images";
     Multer.originalname := "setup.pngx";
     Multer.mimetype := "application/x-gifted";
     Multer.clock := 1700000000001 |}.

(** A form that creates a lamp. *)
Definition lamp : list (string * string) :=
  [("name", "Lamp"); ("description", "A desk lamp"); ("new_price", "30");
   ("old_price", "45"); ("category", "home"); ("available", "false")].

(** A database with the lamp in it, with one picture. *)
Definition shop : Db :=
  (post_products
     (request lamp (Some [jpeg "lamp.jpg" 1699999999000]) 0) empty_db).1.

(** A sign-up form. *)
Definition ada : list (string * string) :=
  [("username", "ada"); ("email", "ada@example.org");
   ("password", "correct horse")].

(** The shop after Ada has signed up. *)
Definition ada_joined : Db := (post_signup (request ada None 0) shop).1.

End Sample.

(** A fact about the sample shop holds by running the model. *)
Ltac run := vm_compute; reflexivity.

(** * Properties *)

(** ** Image intake *)

Lemma accepted_inv (p : Multer.Part) :
  accepted p = true ->
  Multer.fieldname p = "images" /\ fileFilter p = Multer.Accept.
Proof.
  unfold accepted. intros [Hname Hfilter]%andb_prop. split.
  - by apply String.eqb_eq.
  - by destruct (fileFilter p).
Qed.

(** Parts that are all accepted, and no more of them than the field
    allows, are all stored, in the order they came. *)
Lemma intake_accepted (parts : list Multer.Part) (left : nat) :
  forallb accepted parts = true ->
  length parts <= left ->
  Multer.intake fileFilter storage_filename "images" left parts
  = Multer.Next (stored <$> parts).
Proof.
  revert left. induction parts as [|p parts IH]; intros left Hall Hlen.
  - reflexivity.
  - simpl in Hall, Hlen. apply andb_prop in Hall as [Hp Hrest].
    apply accepted_inv in Hp as [Hname Hfilter].
    destruct left as [|left]; [lia|].
    simpl. rewrite Hname, Hfilter. simpl.
    rewrite IH by (done || lia). reflexivity.
Qed.

(** Conversely, what the intake lets through is every part, stored. *)
Lemma intake_next (parts : list Multer.Part) (left : nat)
  (files : list Multer.File) :
  Multer.intake fileFilter storage_filename "images" left parts
  = Multer.Next files ->
  forallb accepted parts = true /\ length parts <= left /\
  files = stored <$> parts.
Proof.
  revert left files.
  induction parts as [|p parts IH]; intros left files Hin; simpl in Hin.
  - injection Hin as <-. simpl. repeat split. lia.
  - destruct (String.eqb (Multer.fieldname p) "images") eqn:Hname;
      simpl in Hin; [|discriminate].
    destruct left as [|left]; [discriminate|].
    destruct (fileFilter p) eqn:Hfilter; [|discriminate].
    destruct (Multer.intake _ _ _ left parts) as [files'|] eqn:Hrest;
      [|discriminate].
    injection Hin as <-.
    destruct (IH _ _ Hrest) as (Hall & Hlen & ->).
    simpl. unfold accepted at 1. rewrite Hname, Hfilter. simpl.
    repeat split; [done | lia].
Qed.

(** A part the file filter refuses aborts the intake. *)
Lemma intake_refused (parts : list Multer.Part) (left : nat) (p : Multer.Part) :
  p ∈ parts ->
  fileFilter p <> Multer.Accept ->
  exists e, Multer.intake fileFilter storage_filename "images" left parts
            = Multer.Abort e.
Proof.
  intros Hin Hrefused.
  destruct (Multer.intake _ _ _ left parts) as [files|e] eqn:Hintake;
    [|by eexists].
  apply intake_next in Hintake as (Hall & _ & _).
  rewrite forallb_forall in Hall.
  apply list_elem_of_In, Hall, accepted_inv in Hin as [_ Hok]. done.
Qed.

Lemma upload_path_not_empty (f : Multer.File) :
  String.eqb (upload_path f) "" = false.
Proof. reflexivity. Qed.

Lemma upload_paths_required (files : list Multer.File) :
  forallb (fun image => negb (String.eqb image "")) (upload_path <$> files)
  = true.
Proof. induction files as [|f files IH]; [done|]. simpl. exact IH. Qed.

(** ** Creating a product *)

Section Create.
Context `{P : Platform}.

Lemma to_number_Some (o : option string) (v : jsval) :
  Cast.to_number o = Some v ->
  match o with
  | Some s => String.eqb s "" || numeric s
  | None => true
  end = true.
Proof.
  destruct o as [s|]; [|done]. unfold Cast.to_number, numeric.
  destruct (String.eqb s ""); [done|]. simpl.
  by destruct (PrimFloat.is_nan (Number_of_string s)).
Qed.

Lemma to_boolean_Some (req : Request) (v : jsval) :
  Cast.to_boolean (available_or_true req) = Some v ->
  match body req !! "available" with
  | Some s => bool_decide (s ∈ ["true"; "1"; "yes"; "false"; "0"; "no"])
  | None => true
  end = true.
Proof.
  unfold available_or_true. destruct (body req !! "available") as [s|];
    [|done]. simpl.
  destruct (bool_decide_reflect (s ∈ ["true"; "1"; "yes"])) as [Hin|_].
  { intros _. apply bool_decide_eq_true.
    rewrite !elem_of_cons in Hin. rewrite !elem_of_cons. tauto. }
  destruct (bool_decide_reflect (s ∈ ["false"; "0"; "no"])) as [Hin|_];
    [|done].
  intros _. apply bool_decide_eq_true.
  rewrite !elem_of_cons in Hin. rewrite !elem_of_cons. tauto.
Qed.

Lemma to_number_numeric (s : string) :
  String.eqb s "" || numeric s = true ->
  exists v, Cast.to_number (Some s) = Some (Some v) /\
            (String.eqb s "" = false -> required_number (Some v) = true).
Proof.
  unfold Cast.to_number, numeric. intros H.
  destruct (String.eqb s "") eqn:Hs; simpl in H.
  - exists JNull. by split.
  - apply negb_true_iff in H. rewrite H. by eexists.
Qed.

Lemma to_boolean_text (s : string) :
  bool_decide (s ∈ ["true"; "1"; "yes"; "false"; "0"; "no"]) = true ->
  exists b, Cast.to_boolean (Some (JStr s)) = Some (Some (JBool b)).
Proof.
  intros H%bool_decide_eq_true. simpl.
  repeat (apply elem_of_cons in H as [->|H]; [by eexists|]).
  by apply elem_of_nil in H.
Qed.

(** A creatable request yields a document that passes validation,
    whatever images come with it, as long as none is the empty path. *)
Lemma create_creatable (req : Request) (id : ObjectId) (images : list string) :
  creatable req = true ->
  forallb (fun image => negb (String.eqb image "")) images = true ->
  exists product,
    Product.create id (now req) (product_init images req) = Some product /\
    Product.validate product = true /\
    Product._id product = id /\
    Product.images product = images /\
    Product.data product = Some (parsedData req).
Proof.
  unfold creatable. intros Hok Himages.
  repeat (apply andb_prop in Hok as [Hok ?]).
  destruct (body req !! "name") as [name|] eqn:Hname; [|done].
  destruct (body req !! "description") as [description|] eqn:Hdesc; [|done].
  destruct (body req !! "new_price") as [price|] eqn:Hprice; [|done].
  destruct (body req !! "category") as [category|] eqn:Hcat; [|done].
  match goal with H : _ && numeric price = true |- _ =>
    apply andb_prop in H as [Hne Hnum] end.
  destruct (to_number_numeric price) as (v & Hv & Hreq).
  { rewrite Hnum. apply orb_true_r. }
  assert (exists w, Cast.to_number (body req !! "old_price") = Some w)
    as [w Hw].
  { destruct (body req !! "old_price") as [old|]; [|by eexists].
    destruct (to_number_numeric old) as (w & Hw & _); [done|by eexists]. }
  assert (exists b, Cast.to_boolean (available_or_true req)
                    = Some (Some (JBool b))) as [b Hb].
  { unfold available_or_true.
    destruct (body req !! "available") as [flag|]; [|by eexists].
    by apply to_boolean_text. }
  unfold Product.create, product_init. simpl.
  rewrite Hname, Hdesc, Hprice, Hcat, Hw, Hv, Hb. simpl.
  eexists. split; [reflexivity|]. unfold Product.validate.
  cbn [Product.name Product.description Product.new_price Product.category
       Product.images Product._id Product.data].
  rewrite Himages, Hreq by (by apply negb_true_iff).
  unfold Cast.to_trimmed, Cast.to_string, text, required_string. simpl.
  repeat split. by repeat (apply andb_true_intro; split).
Qed.

(** [POST /products] on a creatable request: the product is appended to
    the catalog and returned with status 201. *)
Lemma post_products_handler_creatable (files : option (list Multer.File))
  (req : Request) (db : Db) :
  creatable req = true ->
  exists product,
    post_products_handler files req db
    = ({| datas := datas db;
          products := products db ++ [product];
          users := users db;
          next_id := S (next_id db) |},
       Json 201 (ok_product product)) /\
    Product.images product = match files with
                             | Some fs => upload_path <$> fs
                             | None => []
                             end /\
    Product.data product = Some (parsedData req).
Proof.
  intros Hok.
  destruct (create_creatable req (next_id db)
              (match files with Some fs => upload_path <$> fs | None => [] end)
              Hok) as (product & Hcreate & Hvalid & _ & Himages & Hdata).
  { destruct files; [apply upload_paths_required|done]. }
  exists product. split; [|done].
  unfold post_products_handler. cbv zeta. rewrite Hcreate. unfold Store.save_product. by rewrite Hvalid.
Qed.

End Create.

Section Intake.
Context `{P : Platform}.

Lemma upload_array_attached (req : Request) :
  forallb accepted (attached req) = true ->
  length (attached req) <= 50 ->
  upload_array "images" 50 (multipart req)
  = Multer.Next (fmap (M:=option) (fmap (M:=list) stored) (multipart req)).
Proof.
  unfold attached, upload_array, Multer.array. intros Hall Hlen.
  destruct (multipart req) as [parts|]; [|done]. simpl in *.
  by rewrite intake_accepted.
Qed.

(** A part the file filter refuses fails the whole request: the handler
    does not run and the catalog stays as it was. *)
Lemma refused_part_aborts_create (req : Request) (db : Db) (p : Multer.Part) :
  p ∈ attached req ->
  fileFilter p <> Multer.Accept ->
  exists e, post_products req db = (db, Unhandled e).
Proof.
  unfold attached, post_products, upload_array, Multer.array.
  intros Hin Hrefused. destruct (multipart req) as [parts|]; simpl in Hin.
  - destruct (intake_refused parts 50 p Hin Hrefused) as [e ->]. by eexists.
  - by apply elem_of_nil in Hin.
Qed.

Lemma refused_part_aborts_update (policy : undefined_in_update)
  (req : Request) (db : Db) (p : Multer.Part) :
  p ∈ attached req ->
  fileFilter p <> Multer.Accept ->
  exists e, put_products policy req db = (db, Unhandled e).
Proof.
  unfold attached, put_products, upload_array, Multer.array.
  intros Hin Hrefused. destruct (multipart req) as [parts|]; simpl in Hin.
  - destruct (intake_refused parts 50 p Hin Hrefused) as [e ->]. by eexists.
  - by apply elem_of_nil in Hin.
Qed.

End Intake.

(** The file filter accepts exactly the parts whose lower-cased extension
    and whose content type each contain one of the four words. *)
Lemma fileFilter_accept (p : Multer.Part) :
  fileFilter p = Multer.Accept <->
  allowedTypes_test
    (JsString.toLowerCase (Path.extname (Multer.originalname p))) = true /\
  allowedTypes_test (Multer.mimetype p) = true.
Proof.
  unfold fileFilter.
  destruct (allowedTypes_test (JsString.toLowerCase _));
    destruct (allowedTypes_test (Multer.mimetype p)); simpl;
    split; (done || by intros []).
Qed.

(** A file whose extension is one of the four and whose content type is
    the image type of one of the four is accepted. *)
Lemma fileFilter_allow_list (p : Multer.Part) :
  JsString.toLowerCase (Path.extname (Multer.originalname p))
    ∈ [".jpeg"; ".jpg"; ".png"; ".gif"] ->
  Multer.mimetype p ∈ ["image/jpeg"; "image/jpg"; "image/png"; "image/gif"] ->
  fileFilter p = Multer.Accept.
Proof.
  intros Hext Hmime. apply fileFilter_accept. split.
  - repeat (apply elem_of_cons in Hext as [->|Hext]; [reflexivity|]).
    by apply elem_of_nil in Hext.
  - repeat (apply elem_of_cons in Hmime as [->|Hmime]; [reflexivity|]).
    by apply elem_of_nil in Hmime.
Qed.

(** C2.  The file filter is meant to let through only files whose
    extension and content type are in the list jpeg, jpg, png, gif.  Its
    test is an unanchored search, so the part [setup.pngx] declared as
    [application/x-gifted], whose extension and content type are both
    outside the list, is accepted, and the product that carries it is
    persisted with status 201. *)
Theorem disguised_file_is_stored :
  Path.extname (Multer.originalname Sample.disguised) = ".pngx" /\
  fileFilter Sample.disguised = Multer.Accept /\
  exists product,
    @post_products Sample.platform
      (Sample.request Sample.lamp (Some [Sample.disguised]) 0) empty_db
    = ({| datas := []; products := [product]; users := []; next_id := 1 |},
       Json 201 (ok_product product)) /\
    Product.images product = ["/uploads/1700000000001.pngx"].
Proof. repeat split. eexists. split; vm_compute; reflexivity. Qed.

(** ** The catalog: creation *)

Section Catalog.
Context `{P : Platform}.


(** C8.  A creatable request whose attached files are all accepted, at
    most 50 of them, is answered 201 and persists one product, whose
    images are the paths [/uploads/<filename>] of the stored files, one
    per file and in the order the files came; with no file attached the
    images are empty. *)
Theorem create_images_in_order (req : Request) (db : Db) :
  creatable req = true ->
  forallb accepted (attached req) = true ->
  length (attached req) <= 50 ->
  exists product,
    post_products req db
    = ({| datas := datas db;
          products := products db ++ [product];
          users := users db;
          next_id := S (next_id db) |},
       Json 201 (ok_product product)) /\
    Product.images product
    = (fun p => "/uploads/" +:+ storage_filename p) <$> attached req /\
    length (Product.images product) = length (attached req) /\
    (attached req = [] -> Product.images product = []).
Proof.
  intros Hok Hall Hlen. unfold post_products.
  rewrite upload_array_attached by done.
  destruct (post_products_handler_creatable
              (fmap (M:=option) (fmap (M:=list) stored) (multipart req))
              req db Hok) as (product & -> & Himages & _).
  exists product. split; [done|].
  assert (Product.images product
          = (fun p => "/uploads/" +:+ storage_filename p) <$> attached req)
    as Hpaths.
  { rewrite Himages. unfold attached.
    destruct (multipart req) as [parts|]; simpl; [|done].
    by rewrite <- list_fmap_compose. }
  split; [done|]. rewrite Hpaths. split.
  - by rewrite length_fmap.
  - by intros ->.
Qed.


End Catalog.


(** ** Generic records *)

(** C10.  [POST /api/data] validates nothing in the body: whenever the
    upload passes it is answered 201 and the record is persisted with the
    [title] and the [description] of the request, absent when the request
    has none.  With no file attached the upload passes and the
    [imageUrl] is [null]; with a file it is the path of the stored
    file. *)
Theorem create_record_unvalidated (req : Request) (db : Db) :
  (attached req = [] -> upload_single "image" (multipart req) = Multer.Next None)
  /\
  forall file,
    upload_single "image" (multipart req) = Multer.Next file ->
    exists record,
      post_api_data req db
      = ({| datas := datas db ++ [record];
            products := products db;
            users := users db;
            next_id := S (next_id db) |},
         Json 201 (ok_data record)) /\
      Data.title record = JStr <$> body req !! "title" /\
      Data.description record = JStr <$> body req !! "description" /\
      (body req !! "title" = None -> Data.title record = None) /\
      (body req !! "description" = None -> Data.description record = None) /\
      Data.imageUrl record
      = match file with
        | Some f => Some (JStr ("/uploads/" +:+ Multer.filename f))
        | None => Some JNull
        end.
Proof.
  split.
  - unfold attached, upload_single, Multer.single.
    destruct (multipart req) as [parts|]; [|done]. simpl. by intros ->.
  - intros file Hup. unfold post_api_data. rewrite Hup.
    eexists. split; [reflexivity|]. simpl.
    do 2 (split; [done|]). split; [by intros ->|]. split; [by intros ->|].
    by destruct file.
Qed.

(** ** The catalog: update *)

Lemma findById_replace_first (id : ObjectId) (p p' : Product.doc)
  (l : list Product.doc) :
  Store.findById id l = Some p ->
  Product._id p' = id ->
  Store.findById id (Store.replace_first id (fun _ => p') l) = Some p'.
Proof.
  intros Hfind Hid. induction l as [|q l IH]; [done|].
  unfold Store.findById in *. simpl in *.
  destruct (Nat.eqb (Product._id q) id) eqn:Hq; simpl.
  - rewrite Hid, Nat.eqb_refl. done.
  - rewrite Hq. by apply IH.
Qed.

Lemma findById_replace_first_ne (id id' : ObjectId) (p' : Product.doc)
  (l : list Product.doc) :
  Product._id p' = id ->
  id' <> id ->
  Store.findById id' (Store.replace_first id (fun _ => p') l)
  = Store.findById id' l.
Proof.
  intros Hid Hne. induction l as [|q l IH]; [done|].
  unfold Store.findById in *. simpl.
  destruct (Nat.eqb (Product._id q) id) eqn:Hq; simpl.
  - apply Nat.eqb_eq in Hq. rewrite Hid, Hq.
    by destruct (Nat.eqb_spec id id').
  - destruct (Nat.eqb (Product._id q) id'); [done|apply IH].
Qed.

Lemma assign_rebuilt (policy : undefined_in_update) (old : jsval)
  (sent : option json) :
  rebuilt policy old sent (Product.assign policy old sent).
Proof. by destruct sent, policy. Qed.

Section Update.
Context `{P : Platform}.
Variable policy : undefined_in_update.

Lemma to_number_price (o : option string) :
  match o with
  | Some s => String.eqb s "" || numeric s
  | None => true
  end = true ->
  Cast.to_number o = Some (price_of <$> o).
Proof.
  destruct o as [s|]; [|done]. unfold Cast.to_number, price_of, numeric.
  simpl. destruct (String.eqb s ""); simpl; [done|].
  by intros ->%negb_true_iff.
Qed.

(** An updatable request is cast without error, to the values the
    request sent. *)
Lemma castUpdate_updatable (files : option (list Multer.File))
  (req : Request) :
  updatable req = true ->
  exists c,
    Product.castUpdate (updatedData files req) = Some c /\
    Product.cast_name c
    = (fun s => JStr (JsString.trim s)) <$> body req !! "name" /\
    Product.cast_description c = JStr <$> body req !! "description" /\
    Product.cast_new_price c = price_of <$> body req !! "new_price" /\
    Product.cast_old_price c = price_of <$> body req !! "old_price" /\
    Product.cast_category c = JStr <$> body req !! "category" /\
    Cast.to_boolean (available_or_true req)
    = Some (Product.cast_available c) /\
    (exists b, Product.cast_available c = Some (JBool b)) /\
    Product.cast_images c = Product.set_images (updatedData files req).
Proof.
  unfold updatable. intros Hok.
  apply andb_prop in Hok as [[Hnew Hold]%andb_prop Havailable].
  assert (exists b, Cast.to_boolean (available_or_true req)
                    = Some (Some (JBool b))) as [b Hb].
  { unfold available_or_true.
    destruct (body req !! "available") as [flag|]; [|by eexists].
    by apply to_boolean_text. }
  unfold Product.castUpdate. simpl.
  rewrite (to_number_price _ Hnew), (to_number_price _ Hold), Hb. simpl.
  eexists. split; [reflexivity|]. simpl. unfold Cast.to_trimmed, text.
  repeat split; try done.
  - by destruct (body req !! "name").
  - by exists b.
Qed.

(** Casting leaves the keys [images] and [data] as the handler set
    them. *)
Lemma castUpdate_keys (u : Product.update) (c : Product.cast) :
  Product.castUpdate u = Some c ->
  Product.cast_images c = Product.set_images u /\
  Product.cast_data c = Product.set_data u.
Proof.
  unfold Product.castUpdate. intros Hcast.
  destruct (Cast.to_number (Product.set_new_price u)); [|done].
  destruct (Cast.to_number (Product.set_old_price u)); [|done].
  destruct (Cast.to_boolean (Product.set_available u)); [|done].
  simpl in Hcast. by injection Hcast as <-.
Qed.

(** The update of an existing product with a cast that succeeds. *)
Lemma put_products_handler_existing (files : option (list Multer.File))
  (req : Request) (db : Db) (p : Product.doc) (c : Product.cast) :
  Store.findById (params_id req) (products db) = Some p ->
  Product.castUpdate (updatedData files req) = Some c ->
  put_products_handler policy files req db
  = (Store.with_products
       (Store.replace_first (params_id req)
          (fun _ => Product.apply policy (now req) c p) (products db)) db,
     Json 200 (ok_product (Product.apply policy (now req) c p))).
Proof.
  intros Hfind Hcast. unfold put_products_handler, findByIdAndUpdate.
  by rewrite Hcast, Hfind.
Qed.

(** An update that is not answered 200 leaves the database as it was. *)
Lemma put_products_failure (req : Request) (db : Db) :
  status_of (put_products policy req db).2 <> 200 ->
  (put_products policy req db).1 = db.
Proof.
  unfold put_products, put_products_handler, findByIdAndUpdate.
  destruct (upload_array "images" 50 (multipart req)) as [files|e]; [|done].
  destruct (Product.castUpdate (updatedData files req)) as [c|]; [|done].
  by destruct (Store.findById (params_id req) (products db)).
Qed.

Lemma apply_id (now : Z) (c : Product.cast) (p : Product.doc) :
  Product._id (Product.apply policy now c p) = Product._id p.
Proof. reflexivity. Qed.

Lemma findById_id (id : ObjectId) (l : list Product.doc) (p : Product.doc) :
  Store.findById id l = Some p -> Product._id p = id.
Proof.
  unfold Store.findById. intros [_ H]%find_some. by apply Nat.eqb_eq.
Qed.

(** Conversely, an update whose cast succeeds comes from an updatable
    request. *)
Lemma castUpdate_Some_updatable (files : option (list Multer.File))
  (req : Request) (c : Product.cast) :
  Product.castUpdate (updatedData files req) = Some c ->
  updatable req = true.
Proof.
  unfold Product.castUpdate, updatable. simpl. intros Hcast.
  destruct (Cast.to_number (body req !! "new_price")) as [v1|] eqn:H1;
    [|done].
  destruct (Cast.to_number (body req !! "old_price")) as [v2|] eqn:H2;
    [|done].
  destruct (Cast.to_boolean (available_or_true req)) as [v3|] eqn:H3;
    [|done].
  by rewrite (to_number_Some _ _ H1), (to_number_Some _ _ H2),
       (to_boolean_Some _ _ H3).
Qed.

(** What [upload.array("images", 50)] lets through is a request whose
    parts are all accepted and at most 50. *)
Lemma upload_array_next (req : Request) (files : option (list Multer.File)) :
  upload_array "images" 50 (multipart req) = Multer.Next files ->
  forallb accepted (attached req) = true /\ length (attached req) <= 50.
Proof.
  unfold attached, upload_array, Multer.array.
  destruct (multipart req) as [parts|]; simpl; [|by split; [|lia]].
  destruct (Multer.intake _ _ _ 50 parts) as [fs|e] eqn:Hintake; [|done].
  intros _. by apply intake_next in Hintake as (Hall & Hlen & _).
Qed.

(** The flag an update stores for the text of [available]. *)
Lemma to_boolean_flag (s : string) (v : jsval) :
  Cast.to_boolean (Some (JStr s)) = Some v ->
  v = Some (JBool (bool_decide (s ∈ ["true"; "1"; "yes"]))).
Proof.
  simpl. destruct (bool_decide (s ∈ ["true"; "1"; "yes"])).
  - by intros [= <-].
  - destruct (bool_decide (s ∈ ["false"; "0"; "no"])); [|done].
    by intros [= <-].
Qed.

End Update.

Section UpdateClaims.
Context `{P : Platform}.
Variable policy : undefined_in_update.

(** C1 (amended).  On an existing product, [PUT /products/:id] rebuilds
    the scalar fields from the request alone, or writes nothing.  When a
    file part is refused or there are more than 50, or a price is a text
    that is not empty and not a number, or [available] is a text other
    than true, 1, yes, false, 0 and no, the request is answered 500 and
    the database stays as it was.  Otherwise it is answered 200 with the
    stored product, in which a [name], [description], [new_price],
    [old_price] or [category] the request sends is written over the
    stored one, the name trimmed and a price as the number of its text,
    [null] for the empty text; one the request omits is passed as
    [undefined], which the library either writes as [null] or drops,
    leaving the stored value; [available] is the boolean its text stands
    for, and [true] when the request omits it. *)
Theorem update_rebuilds_scalars (req : Request) (db : Db) (p : Product.doc) :
  Store.findById (params_id req) (products db) = Some p ->
  let carried :=
    forallb accepted (attached req) && (length (attached req) <=? 50)%nat
    && updatable req in
  (carried = false ->
   (put_products policy req db).1 = db /\
   status_of (put_products policy req db).2 = 500) /\
  (carried = true ->
   exists p' db',
     put_products policy req db = (db', Json 200 (ok_product p')) /\
     Store.findById (params_id req) (products db') = Some p' /\
     rebuilt policy (Product.name p)
       ((fun s => JStr (JsString.trim s)) <$> body req !! "name")
       (Product.name p') /\
     rebuilt policy (Product.description p)
       (JStr <$> body req !! "description") (Product.description p') /\
     rebuilt policy (Product.new_price p)
       (price_of <$> body req !! "new_price") (Product.new_price p') /\
     rebuilt policy (Product.old_price p)
       (price_of <$> body req !! "old_price") (Product.old_price p') /\
     rebuilt policy (Product.category p)
       (JStr <$> body req !! "category") (Product.category p') /\
     (body req !! "available" = None ->
      Product.available p' = Some (JBool true)) /\
     (forall s, body req !! "available" = Some s ->
        Product.available p'
        = Some (JBool (bool_decide (s ∈ ["true"; "1"; "yes"]))))).
Proof.
  intros Hfind carried. subst carried. split.
  - intros Hno. unfold put_products.
    destruct (upload_array "images" 50 (multipart req)) as [files|e]
      eqn:Hupload; [|done].
    apply upload_array_next in Hupload as [Hall Hlen].
    apply Nat.leb_le in Hlen. rewrite Hall, Hlen in Hno. simpl in Hno.
    unfold put_products_handler, findByIdAndUpdate.
    destruct (Product.castUpdate (updatedData files req)) as [c|] eqn:Hcast;
      [|done].
    apply castUpdate_Some_updatable in Hcast. congruence.
  - intros [[Hall Hlen%Nat.leb_le]%andb_prop Hok]%andb_prop.
    unfold put_products. rewrite upload_array_attached by done.
    destruct (castUpdate_updatable
                (fmap (M:=option) (fmap (M:=list) stored) (multipart req))
                req Hok)
      as (c & Hcast & Hname & Hdesc & Hnew & Hold & Hcat & Hflag & _).
    rewrite (put_products_handler_existing policy _ req db p c Hfind Hcast).
    do 2 eexists. split; [reflexivity|]. split.
    { apply (findById_replace_first _ p); [done|].
      by apply findById_id in Hfind. }
    cbn [Product.apply Product.name Product.description Product.new_price
         Product.old_price Product.category Product.available].
    rewrite <- Hname, <- Hdesc, <- Hnew, <- Hold, <- Hcat.
    repeat (split; [apply assign_rebuilt|]).
    unfold available_or_true in Hflag. split.
    + intros Habsent. rewrite Habsent in Hflag. simpl in Hflag.
      by injection Hflag as <-.
    + intros s Hsent. rewrite Hsent in Hflag.
      apply to_boolean_flag in Hflag as ->. done.
Qed.

(** C7.  On an existing product, [PUT /products/:id] with no file
    attached leaves the stored images as they were; with files attached
    and status 200 it stores the paths of the new files, in their order,
    and nothing else; in every case the stored images are either all old
    or all new, and no other product is touched. *)
Theorem update_images (req : Request) (db : Db) (p : Product.doc) :
  Store.findById (params_id req) (products db) = Some p ->
  let after := put_products policy req db in
  let paths :=
    (fun part => "/uploads/" +:+ storage_filename part) <$> attached req in
  exists p',
    Store.findById (params_id req) (products after.1) = Some p' /\
    (attached req = [] -> Product.images p' = Product.images p) /\
    (attached req <> [] -> status_of after.2 = 200 ->
     Product.images p' = paths) /\
    (Product.images p' = Product.images p \/ Product.images p' = paths) /\
    (forall id, id <> params_id req ->
       Store.findById id (products after.1) = Store.findById id (products db)).
Proof.
  intros Hfind after paths. subst after.
  destruct (decide (status_of (put_products policy req db).2 = 200))
    as [Hok|Hfail].
  2:{ rewrite (put_products_failure policy req db Hfail).
      exists p. repeat split; try done; by left. }
  revert Hok. unfold put_products.
  destruct (upload_array "images" 50 (multipart req)) as [files|e] eqn:Hup;
    [|done].
  unfold put_products_handler, findByIdAndUpdate. rewrite Hfind.
  destruct (Product.castUpdate (updatedData files req)) as [c|] eqn:Hcast;
    [|simpl; intros; lia].
  intros _. cbn [fst snd Store.with_products products].
  pose proof (findById_id _ _ _ Hfind) as Hid.
  exists (Product.apply policy (now req) c p).
  assert (Product.cast_images c = Product.set_images (updatedData files req))
    as Himages.
  { by apply castUpdate_keys in Hcast as [? _]. }
  assert (files = fmap (M:=option) (fmap (M:=list) stored) (multipart req))
    as ->.
  { unfold upload_array, Multer.array in Hup.
    destruct (multipart req) as [parts|]; [|by injection Hup as <-].
    destruct (Multer.intake _ _ _ _ parts) as [fs|] eqn:Hin; [|done].
    apply intake_next in Hin as (_ & _ & ->). by injection Hup as <-. }
  assert (Product.images (Product.apply policy (now req) c p)
          = if decide (attached req = []) then Product.images p else paths)
    as Hstored.
  { cbn [Product.apply Product.images]. rewrite Himages.
    unfold updatedData, attached, paths. cbn [Product.set_images].
    unfold attached. destruct (multipart req) as [[|part parts]|]; try done.
    simpl. by rewrite <- list_fmap_compose. }
  split; [by apply (findById_replace_first _ p)|].
  rewrite Hstored. repeat split.
  - intros Hnone. by rewrite decide_True.
  - intros Hsome _. by rewrite decide_False.
  - case_decide; [by left|by right].
  - intros id Hne. by apply findById_replace_first_ne.
Qed.

End UpdateClaims.

(** C1 (counterexample).  The lamp is stored with [available] false.  An
    update that sends no field at all leaves it with [available] true,
    under either treatment of [undefined]: the omitted field is neither
    cleared nor kept. *)
Lemma omitted_available_becomes_true :
  let req := Sample.request [] None 0 in
  body req !! "available" = None /\
  Product.available <$> Store.findById 0 (products Sample.shop)
  = Some (Some (JBool false)) /\
  (forall policy,
     Product.available <$>
       Store.findById 0
         (products (@put_products Sample.platform policy req Sample.shop).1)
     = Some (Some (JBool true))) /\
  ~ cleared (Some (JBool true)).
Proof.
  cbv zeta. split; [reflexivity|]. split; [reflexivity|].
  split; [by intros []|]. by intros [|].
Qed.

(** ** Accounts *)

Lemma findOne_email_Some (e : option string) (l : list Users.doc)
  (u : Users.doc) :
  Store.findOne_email e l = Some u -> u ∈ l /\ Users.email u = e.
Proof.
  unfold Store.findOne_email. intros [Hin Heq]%find_some. split.
  - by apply list_elem_of_In.
  - by apply bool_decide_eq_true in Heq.
Qed.

Lemma findOne_email_None (e : option string) (l : list Users.doc) :
  Store.findOne_email e l = None <-> forall u, u ∈ l -> Users.email u <> e.
Proof.
  unfold Store.findOne_email. split.
  - intros Hnone u Hin%list_elem_of_In.
    by apply (find_none _ _ Hnone), bool_decide_eq_false in Hin.
  - intros Hall. induction l as [|u l IH]; [done|]. simpl.
    rewrite bool_decide_eq_false_2 by (apply Hall; left).
    apply IH. intros v Hv. apply Hall. by right.
Qed.

Lemma findOne_email_is_Some (e : option string) (l : list Users.doc) :
  (exists u, u ∈ l /\ Users.email u = e) ->
  exists u, Store.findOne_email e l = Some u.
Proof.
  intros (u & Hin & Heq).
  destruct (Store.findOne_email e l) as [v|] eqn:Hfind; [by eexists|].
  by destruct (proj1 (findOne_email_None e l) Hfind u Hin).
Qed.

(** The first user with an email stays the first when users are added
    after it. *)
Lemma findOne_email_app (e : option string) (l more : list Users.doc)
  (u : Users.doc) :
  Store.findOne_email e l = Some u ->
  Store.findOne_email e (l ++ more) = Some u.
Proof.
  unfold Store.findOne_email. induction l as [|v l IH]; [done|]. simpl.
  by destruct (bool_decide (Users.email v = e)).
Qed.

Lemma findOne_email_snoc (e : option string) (l : list Users.doc)
  (u : Users.doc) :
  Store.findOne_email e l = None ->
  Users.email u = e ->
  Store.findOne_email e (l ++ [u]) = Some u.
Proof.
  unfold Store.findOne_email. intros Hnone Heq.
  induction l as [|v l IH]; simpl in *.
  - by rewrite bool_decide_eq_true_2.
  - destruct (bool_decide (Users.email v = e)); [done|by apply IH].
Qed.

(** The cart after [n] rounds of the loop has the slots below [n], each
    at zero. *)
Lemma cart_loop_lookup (n i : nat) :
  cart_loop n !! i = if decide (i < n) then Some 0%Z else None.
Proof.
  unfold cart_loop. induction n as [|n IH].
  - cbn [seq foldl]. rewrite lookup_empty. destruct (decide (i < 0)); [lia|done].
  - rewrite seq_S, foldl_snoc. simpl.
    destruct (decide (n = i)) as [->|Hne].
    + rewrite lookup_insert_eq. by rewrite decide_True by lia.
    + rewrite lookup_insert_ne by done. rewrite IH.
      repeat case_decide; (done || lia).
Qed.

Lemma cart_loop_dom (n : nat) : dom (cart_loop n) = set_seq 0 n.
Proof.
  apply set_eq. intros i. rewrite elem_of_dom, cart_loop_lookup.
  rewrite elem_of_set_seq. case_decide.
  - split; [lia|by eexists].
  - split; [by intros []|lia].
Qed.

Lemma cart_loop_size (n : nat) : size (cart_loop n) = n.
Proof.
  unfold cart_loop. induction n as [|n IH]; [done|].
  rewrite seq_S, foldl_snoc. simpl. rewrite map_size_insert_None; [by f_equal|].
  fold (cart_loop n). rewrite cart_loop_lookup. case_decide; [lia|done].
Qed.

(** The token every sign-up and every login issues. *)
Lemma issue_token_eq (user : Users.doc) (req : Request) :
  issue_token user req
  = Json 200 (ok_token
      {| Jwt.user_id := ObjectId_toString (Users._id user);
         Jwt.iat := now req `div` 1000;
         Jwt.exp := now req `div` 1000 + 3600;
         Jwt.key := "secret_ecom" |}).
Proof. reflexivity. Qed.

Section Accounts.
Context `{P : Platform}.

(** A sign-up that finds no user with the email and has a password to
    hash appends the new user and answers with the token. *)
Lemma post_signup_fresh (req : Request) (db : Db) (password : string) :
  Store.findOne_email (body req !! "email") (users db) = None ->
  body req !! "password" = Some password ->
  post_signup req db
  = (Store.save_user
       (new_user req db (bcrypt_hash password 10 (salt req))) db,
     issue_token (new_user req db (bcrypt_hash password 10 (salt req))) req).
Proof. intros Hnone Hpw. unfold post_signup. by rewrite Hnone, Hpw. Qed.

(** What a sign-up answered with a token has done. *)
Lemma post_signup_token (req : Request) (db db' : Db) (token : Jwt.token) :
  post_signup req db = (db', Json 200 (ok_token token)) ->
  exists password,
    Store.findOne_email (body req !! "email") (users db) = None /\
    body req !! "password" = Some password /\
    db' = Store.save_user
            (new_user req db (bcrypt_hash password 10 (salt req))) db /\
    Jwt.user_id token = ObjectId_toString (next_id db) /\
    Jwt.key token = "secret_ecom" /\
    Jwt.lifetime token = 3600%Z.
Proof.
  unfold post_signup.
  destruct (Store.findOne_email _ _) eqn:Hfind; [done|].
  destruct (body req !! "password") as [password|]; [|done].
  rewrite issue_token_eq. intros [= <- <-]. exists password.
  repeat split; try done. unfold Jwt.lifetime. simpl. lia.
Qed.

(** What a login answered with a token has found. *)
Lemma post_login_token (req : Request) (db db' : Db) (token : Jwt.token) :
  post_login req db = (db', Json 200 (ok_token token)) ->
  exists user,
    Store.findOne_email (body req !! "email") (users db) = Some user /\
    db' = db /\
    Jwt.user_id token = ObjectId_toString (Users._id user) /\
    Jwt.key token = "secret_ecom" /\
    Jwt.lifetime token = 3600%Z.
Proof.
  unfold post_login.
  destruct (Store.findOne_email _ _) as [user|] eqn:Hfind; [|done].
  destruct (body req !! "password") as [password|]; [|done].
  destruct (bcrypt_compare password (Users.password user)); [|done].
  rewrite issue_token_eq. intros [= <- <-]. exists user.
  repeat split; try done. unfold Jwt.lifetime. simpl. lia.
Qed.

Variable policy : undefined_in_update.

(** No route changes or removes a user; only a sign-up adds one, at the
    end. *)
Lemma app_users (route : Route) (req : Request) (db : Db) :
  exists more, users (app policy route req db).1 = users db ++ more.
Proof.
  destruct route; simpl.
  - unfold post_api_data. destruct (upload_single _ _);
      exists []; by rewrite app_nil_r.
  - exists []. by rewrite app_nil_r.
  - unfold post_products, post_products_handler, Store.save_product.
    exists []. rewrite app_nil_r. repeat case_match; by simplify_eq.
  - exists []. by rewrite app_nil_r.
  - unfold delete_products. exists []. rewrite app_nil_r. by case_match.
  - unfold put_products, put_products_handler, findByIdAndUpdate.
    exists []. rewrite app_nil_r. repeat case_match; by simplify_eq.
  - unfold post_signup. repeat case_match;
      try (exists []; by rewrite app_nil_r). by eexists [_].
  - unfold post_login. exists []. rewrite app_nil_r. by repeat case_match.
Qed.

Lemma run_users (requests : list (Route * Request)) (db : Db) :
  exists more, users (run policy requests db) = users db ++ more.
Proof.
  revert db. induction requests as [|[route req] requests IH]; intros db.
  - exists []. by rewrite app_nil_r.
  - simpl. destruct (IH (app policy route req db).1) as [more ->].
    destruct (app_users route req db) as [more' ->].
    exists (more' ++ more). by rewrite app_assoc.
Qed.

(** Once a user is the one the store finds for an email, it stays so
    through every later request. *)
Lemma run_findOne_email (requests : list (Route * Request)) (db : Db)
  (e : option string) (u : Users.doc) :
  Store.findOne_email e (users db) = Some u ->
  Store.findOne_email e (users (run policy requests db)) = Some u.
Proof.
  intros Hfind. destruct (run_users requests db) as [more ->].
  by apply findOne_email_app.
Qed.

End Accounts.

Section AccountClaims.
Context `{P : Platform}.

(** C3.  [POST /signup] with an email that a stored user already has is
    answered 400 with the error [Email already exists] and leaves the
    database as it was; with an email no stored user has, and a password
    to hash, it is answered 200 with a token and the users grow by
    exactly the new one. *)
Theorem signup_duplicate_or_fresh (req : Request) (db : Db) (e : string) :
  body req !! "email" = Some e ->
  ((exists u, u ∈ users db /\ Users.email u = Some e) ->
   post_signup req db = (db, Json 400 (failure "Email already exists"))) /\
  (forall password,
     body req !! "password" = Some password ->
     (forall u, u ∈ users db -> Users.email u <> Some e) ->
     exists user token db',
       post_signup req db = (db', Json 200 (ok_token token)) /\
       users db' = users db ++ [user] /\
       length (users db') = S (length (users db)) /\
       Users.email user = Some e /\
       products db' = products db /\
       datas db' = datas db).
Proof.
  intros Hemail. split.
  - intros [u Hu]%findOne_email_is_Some. unfold post_signup.
    by rewrite Hemail, Hu.
  - intros password Hpw Hfresh%findOne_email_None.
    rewrite <- Hemail in Hfresh.
    rewrite (post_signup_fresh req db password Hfresh Hpw), issue_token_eq.
    do 3 eexists. split; [reflexivity|]. simpl.
    rewrite length_app. simpl. repeat split; (done || lia).
Qed.

(** C4.  [POST /login] with an email no stored user has is answered 400
    with the error [Invalid Email], and no token; with the email of a
    stored user it is answered 400 with [Invalid Password] when the
    comparison of the password with that user's hash fails, and 200 with
    a token for that user when it succeeds.  The database stays as it
    was. *)
Theorem login_outcomes (req : Request) (db : Db) (e : string) :
  body req !! "email" = Some e ->
  ((forall u, u ∈ users db -> Users.email u <> Some e) ->
   post_login req db = (db, Json 400 (failure "Invalid Email"))) /\
  (forall password,
     body req !! "password" = Some password ->
     (exists u, u ∈ users db /\ Users.email u = Some e) ->
     exists user,
       user ∈ users db /\ Users.email user = Some e /\
       (bcrypt_compare password (Users.password user) = false ->
        post_login req db = (db, Json 400 (failure "Invalid Password"))) /\
       (bcrypt_compare password (Users.password user) = true ->
        exists token,
          post_login req db = (db, Json 200 (ok_token token)) /\
          Jwt.user_id token = ObjectId_toString (Users._id user))).
Proof.
  intros Hemail. split.
  - intros Hnone%findOne_email_None. unfold post_login.
    by rewrite Hemail, Hnone.
  - intros password Hpw [user Hfind]%findOne_email_is_Some.
    destruct (findOne_email_Some _ _ _ Hfind) as [Hin Heq].
    exists user. split; [done|]. split; [done|].
    unfold post_login. rewrite Hemail, Hfind, Hpw.
    split; intros ->; [done|]. rewrite issue_token_eq. by eexists.
Qed.

(** C9.  The user a sign-up answered with a token has persisted carries
    the bcrypt hash, at cost 10, of the password that was sent, and a
    cart with exactly the slots 0 to 299, each at zero. *)
Theorem signup_persists_hash_and_cart (req : Request) (db db' : Db)
  (token : Jwt.token) :
  post_signup req db = (db', Json 200 (ok_token token)) ->
  exists user password,
    users db' = users db ++ [user] /\
    body req !! "password" = Some password /\
    Users.password user = bcrypt_hash password 10 (salt req) /\
    (forall i : nat,
       Users.cartDate user !! i
       = if decide (i < 300) then Some 0%Z else None) /\
    dom (Users.cartDate user) = set_seq 0 300 /\
    size (Users.cartDate user) = 300.
Proof.
  intros (password & _ & Hpw & -> & _)%post_signup_token.
  exists (new_user req db (bcrypt_hash password 10 (salt req))), password.
  cbn [users Store.save_user new_user Users.password Users.cartDate].
  do 3 (split; [done|]). split; [apply cart_loop_lookup|].
  split; [apply cart_loop_dom|apply cart_loop_size].
Qed.

Variable policy : undefined_in_update.

(** C5.  The token a sign-up issues and the token any later login with
    the same email issues, whatever requests were served in between,
    name the same user id, that of the user the sign-up persisted; both
    are signed with the one key [secret_ecom] and both expire 3600
    seconds after they were issued. *)
Theorem tokens_identify_same_user (signup login : Request)
  (between : list (Route * Request)) (db db1 db2 : Db)
  (t1 t2 : Jwt.token) :
  post_signup signup db = (db1, Json 200 (ok_token t1)) ->
  body login !! "email" = body signup !! "email" ->
  post_login login (run policy between db1) = (db2, Json 200 (ok_token t2)) ->
  Jwt.user_id t2 = Jwt.user_id t1 /\
  (exists user,
     user ∈ users db1 /\ Users.email user = body signup !! "email" /\
     Jwt.user_id t1 = ObjectId_toString (Users._id user)) /\
  Jwt.key t1 = "secret_ecom" /\ Jwt.key t2 = Jwt.key t1 /\
  Jwt.lifetime t1 = 3600%Z /\ Jwt.lifetime t2 = Jwt.lifetime t1.
Proof.
  intros (password & Hfresh & _ & -> & Hid1 & Hkey1 & Hlife1)%post_signup_token
         Hsame
         (user & Hfind & _ & Hid2 & Hkey2 & Hlife2)%post_login_token.
  set (new := new_user signup db (bcrypt_hash password 10 (salt signup))) in *.
  assert (Store.findOne_email (body signup !! "email")
            (users (Store.save_user new db)) = Some new) as Hnew.
  { by apply findOne_email_snoc. }
  rewrite Hsame, (run_findOne_email policy between _ _ _ Hnew) in Hfind.
  injection Hfind as <-.
  split; [by rewrite Hid1, Hid2|]. split.
  { exists new. split; [|done]. simpl. apply elem_of_app. right. by left. }
  by rewrite Hkey1, Hkey2, Hlife1, Hlife2.
Qed.

End AccountClaims.

(** ** Further properties of the routes *)

(** Node's own examples of [path.extname]. *)
Example extname_html : Path.extname "index.html" = ".html".
Proof. reflexivity. Qed.

Example extname_last_dot : Path.extname "index.coffee.md" = ".md".
Proof. reflexivity. Qed.

Example extname_trailing_dot : Path.extname "index." = ".".
Proof. reflexivity. Qed.

Example extname_no_dot : Path.extname "index" = "".
Proof. reflexivity. Qed.

Example extname_hidden : Path.extname ".index" = "".
Proof. reflexivity. Qed.

Example extname_hidden_md : Path.extname ".index.md" = ".md".
Proof. reflexivity. Qed.

(** An upper-case extension is accepted, an upper-case content type is
    not: only the extension is lower-cased before the test. *)
Example fileFilter_upper_case :
  fileFilter {| Multer.fieldname := "images"; Multer.originalname := "A.PNG";
                Multer.mimetype := "image/png"; Multer.clock := 0 |}
  = Multer.Accept /\
  fileFilter {| Multer.fieldname := "images"; Multer.originalname := "a.png";
                Multer.mimetype := "IMAGE/PNG"; Multer.clock := 0 |}
  = Multer.Refuse "Only images are allowed".
Proof. split; reflexivity. Qed.

(** A text file sent as a product image is refused before anything is
    persisted. *)
Example txt_upload_is_refused :
  @post_products Sample.platform
    (Sample.request Sample.lamp
       (Some [{| Multer.fieldname := "images";
                 Multer.originalname := "notes.txt";
                 Multer.mimetype := "text/plain";
                 Multer.clock := 1700000000002 |}]) 0)
    Sample.shop
  = (Sample.shop, Unhandled (Multer.FilterError "Only images are allowed")).
Proof. reflexivity. Qed.

Section Further.
Context `{P : Platform}.
Variable policy : undefined_in_update.

(** Deleting an id that no product has is answered 404 and changes
    nothing. *)
Lemma delete_products_missing (req : Request) (db : Db) :
  Store.findById (params_id req) (products db) = None ->
  delete_products req db = (db, Json 404 (failure "Product not found")).
Proof. intros Hnone. unfold delete_products. by rewrite Hnone. Qed.

(** Every token the application issues is signed with the same key and
    lives one hour, whoever the user is. *)
Lemma app_token (route : Route) (req : Request) (db : Db) (status : nat)
  (token : Jwt.token) :
  (app policy route req db).2 = Json status (ok_token token) ->
  Jwt.key token = "secret_ecom" /\ Jwt.lifetime token = 3600%Z.
Proof.
  destruct route; simpl.
  - unfold post_api_data. by case_match.
  - done.
  - unfold post_products, post_products_handler. by repeat case_match.
  - done.
  - unfold delete_products. by case_match.
  - unfold put_products, put_products_handler. by repeat case_match.
  - unfold post_signup. rewrite ?issue_token_eq.
    repeat case_match; try done. rewrite issue_token_eq.
    intros [= _ <-]. split; [done|]. unfold Jwt.lifetime. simpl. lia.
  - unfold post_login. repeat case_match; try done. rewrite issue_token_eq.
    intros [= _ <-]. split; [done|]. unfold Jwt.lifetime. simpl. lia.
Qed.

(** A sign-up adds a user only when the store finds none with the
    email, so unique emails stay unique. *)
Lemma app_emails_unique (route : Route) (req : Request) (db : Db) :
  emails_unique db -> emails_unique (app policy route req db).1.
Proof.
  unfold emails_unique. intros Hunique.
  destruct route; simpl; try done.
  - unfold post_api_data. by case_match.
  - unfold post_products, post_products_handler, Store.save_product.
    repeat case_match; by simplify_eq.
  - unfold delete_products. by case_match.
  - unfold put_products, put_products_handler, findByIdAndUpdate.
    repeat case_match; by simplify_eq.
  - unfold post_signup.
    destruct (Store.findOne_email _ _) eqn:Hfind; [done|].
    destruct (body req !! "password"); [|done]. simpl.
    rewrite fmap_app. apply NoDup_app. split; [done|]. split.
    + intros e [u [-> Hu]]%list_elem_of_fmap Hin. simpl in Hin.
      apply list_elem_of_singleton in Hin.
      by apply (proj1 (findOne_email_None _ _) Hfind u).
    + apply NoDup_singleton.
  - unfold post_login. by repeat case_match.
Qed.

Lemma run_emails_unique (requests : list (Route * Request)) (db : Db) :
  emails_unique db -> emails_unique (run policy requests db).
Proof.
  revert db. induction requests as [|[route req] requests IH]; intros db H.
  - done.
  - simpl. by apply IH, app_emails_unique.
Qed.

(** In a store with unique emails, the user the store finds for an email
    is the only user with it. *)
Lemma findOne_email_unique (db : Db) (u : Users.doc) :
  emails_unique db ->
  u ∈ users db ->
  Store.findOne_email (Users.email u) (users db) = Some u.
Proof.
  unfold emails_unique, Store.findOne_email. intros Hunique Hin.
  induction (users db) as [|v l IH]; [by apply elem_of_nil in Hin|].
  simpl in *. apply NoDup_cons in Hunique as [Hv Hl].
  apply elem_of_cons in Hin as [->|Hin].
  - by rewrite bool_decide_eq_true_2.
  - rewrite bool_decide_eq_false_2; [by apply IH|].
    intros Heq. apply Hv. rewrite Heq. by apply list_elem_of_fmap_2.
Qed.

End Further.

(** ** The properties at work on the sample shop *)

Module Witness.
Import Sample.

(** An update that sends only a name, under the treatment that writes
    [undefined] as [null]: the name is replaced, the description is
    cleared, and [available] is true. *)
Lemma update_rebuilds_scalars_lamp :
  exists p' db',
    put_products WrittenAsNull (request [("name", "  Desk lamp ")] None 0) shop
    = (db', Json 200 (ok_product p')) /\
    Product.name p' = Some (JStr "Desk lamp") /\
    Product.description p' = Some JNull /\
    Product.available p' = Some (JBool true).
Proof.
  destruct (update_rebuilds_scalars (P:=platform) WrittenAsNull
              (request [("name", "  Desk lamp ")] None 0) shop _ eq_refl)
    as [_ Hcarried].
  destruct (Hcarried ltac:(run))
    as (p' & db' & Hput & _ & Hname & Hdesc & _ & _ & _ & Hflag & _).
  exists p', db'. split; [exact Hput|]. split; [exact Hname|].
  split; [exact Hdesc|]. exact (Hflag eq_refl).
Defined.

(** An update with two pictures replaces the one picture of the lamp. *)
Lemma update_images_lamp :
  let req := request [] (Some [jpeg "front.PNG" 5; jpeg "back.jpeg" 6]) 0 in
  exists p',
    Store.findById 0 (products (put_products Dropped req shop).1) = Some p' /\
    Product.images p' = ["/uploads/5.PNG"; "/uploads/6.jpeg"].
Proof.
  intros req.
  destruct (update_images (P:=platform) Dropped req shop _ eq_refl)
    as (p' & Hfind & _ & Hnew & _).
  exists p'. split; [exact Hfind|]. apply Hnew; [discriminate|reflexivity].
Defined.

(** Three JPEG files make a product with three images, in order. *)
Lemma create_images_in_order_three :
  exists product,
    post_products
      (request lamp
         (Some [jpeg "a.jpg" 11; jpeg "b.jpg" 12; jpeg "c.jpg" 13]) 0)
      empty_db
    = ({| datas := []; products := [product]; users := []; next_id := 1 |},
       Json 201 (ok_product product)) /\
    Product.images product
    = ["/uploads/11.jpg"; "/uploads/12.jpg"; "/uploads/13.jpg"].
Proof.
  destruct (create_images_in_order (P:=platform)
              (request lamp
                 (Some [jpeg "a.jpg" 11; jpeg "b.jpg" 12; jpeg "c.jpg" 13]) 0)
              empty_db ltac:(run) ltac:(run))
    as (product & Hpost & Himages & _); [simpl; lia|].
  exists product. split; [exact Hpost|exact Himages].
Defined.


(** A record with no field and no file. *)
Lemma create_record_unvalidated_empty :
  exists record,
    post_api_data (request [] None 0) empty_db
    = ({| datas := [record]; products := []; users := []; next_id := 1 |},
       Json 201 (ok_data record)) /\
    Data.title record = None /\ Data.imageUrl record = Some JNull.
Proof.
  destruct (create_record_unvalidated (request [] None 0) empty_db)
    as [Hpass Hrecord].
  destruct (Hrecord None (Hpass eq_refl))
    as (record & Hpost & _ & _ & Htitle & _ & Hurl).
  exists record. split; [exact Hpost|]. split; [exact (Htitle eq_refl)|].
  exact Hurl.
Defined.

(** Ada signs up once, and cannot sign up twice. *)
Lemma signup_duplicate_or_fresh_ada :
  (exists user token,
     post_signup (request ada None 0) shop
     = (ada_joined, Json 200 (ok_token token)) /\
     users ada_joined = [user]) /\
  post_signup (request ada None 0) ada_joined
  = (ada_joined, Json 400 (failure "Email already exists")).
Proof.
  split.
  - destruct (signup_duplicate_or_fresh (P:=platform) (request ada None 0) shop
                "ada@example.org" eq_refl) as [_ Hfresh].
    destruct (Hfresh "correct horse" eq_refl)
      as (user & token & db' & Hpost & Husers & _).
    { intros u Hin. by apply elem_of_nil in Hin. }
    exists user, token. unfold ada_joined. rewrite Hpost. by split.
  - destruct (signup_duplicate_or_fresh (P:=platform) (request ada None 0) ada_joined
                "ada@example.org" eq_refl) as [Hdup _].
    apply Hdup. eexists. split; [by left|reflexivity].
Defined.

(** Ada logs in with a wrong password. *)
Lemma login_outcomes_ada :
  post_login
    (request [("email", "ada@example.org"); ("password", "battery")] None 0)
    ada_joined
  = (ada_joined, Json 400 (failure "Invalid Password")).
Proof.
  destruct (login_outcomes (P:=platform)
              (request
                 [("email", "ada@example.org"); ("password", "battery")]
                 None 0)
              ada_joined "ada@example.org" eq_refl) as [_ Hfound].
  destruct (Hfound "battery" eq_refl)
    as (user & Hin & _ & Hwrong & _).
  { eexists. split; [by left|reflexivity]. }
  apply Hwrong. apply list_elem_of_singleton in Hin as ->. reflexivity.
Defined.

(** Ada's record holds the hash and the 300 slots. *)
Lemma signup_persists_hash_and_cart_ada :
  exists user,
    users ada_joined = [user] /\
    Users.password user = hash "correct horse" 10 "N9qo8uLOickgx2ZMRZoMye" /\
    Users.cartDate user !! 299 = Some 0%Z /\
    Users.cartDate user !! 300 = None.
Proof.
  destruct (signup_persists_hash_and_cart (P:=platform) (request ada None 0) shop
              ada_joined _ eq_refl)
    as (user & password & Husers & Hpw & Hhash & Hcart & _).
  exists user. split; [exact Husers|]. injection Hpw as <-.
  split; [exact Hhash|]. split; [exact (Hcart 299)|exact (Hcart 300)].
Defined.

(** Ada's sign-up token and the token of a later login name the same
    user, with other requests served in between. *)
Lemma tokens_identify_same_user_ada :
  exists t1 t2,
    post_signup (request ada None 0) shop
    = (ada_joined, Json 200 (ok_token t1)) /\
    Jwt.user_id t2 = Jwt.user_id t1 /\ Jwt.key t2 = "secret_ecom".
Proof.
  pose (between :=
          [(POST_signup,
            request [("email", "bob@example.org"); ("password", "pw")]
              None 0);
           (POST_products, request lamp None 0);
           (POST_login, request ada None 0)]).
  destruct (tokens_identify_same_user (P:=platform) Dropped (request ada None 0)
              (request ada None 0) between shop ada_joined _ _ _
              eq_refl eq_refl eq_refl)
    as (Hid & _ & Hkey1 & Hkey2 & _).
  do 2 eexists. split; [reflexivity|]. split; [exact Hid|].
  exact (eq_trans Hkey2 Hkey1).
Defined.

End Witness.

(** * The rest of index.js *)

(** ** The CORS policy *)

Lemma indexOf_from_absent (x : string) (l : list string) (i : Z) :
  (0 <= i)%Z ->
  indexOf_from i x l = (-1)%Z <-> x ∉ l.
Proof.
  revert i. induction l as [|y l IH]; intros i Hi; simpl.
  - split; [intros _; apply not_elem_of_nil | done].
  - rewrite not_elem_of_cons. destruct (String.eqb_spec y x) as [->|Hne].
    + split; [lia | by intros []].
    + rewrite IH by lia. split; [by split | by intros []].
Qed.

(** X1.  The CORS policy lets a request through exactly when it has no
    [Origin] header, an empty one, or one that is, character for
    character, one of the two listed origins; every other origin gets
    the error [Not allowed by CORS]. *)
Theorem cors_origin_allows (origin : option string) :
  (cors_origin origin = CorsAllow <->
   origin = None \/ origin = Some "" \/
   exists o, origin = Some o /\ o ∈ allowedOrigins) /\
  (cors_origin origin = CorsAllow \/
   cors_origin origin = CorsError "Not allowed by CORS").
Proof.
  destruct origin as [o|]; simpl; [|split; [split; auto|auto]].
  destruct (String.eqb_spec o "") as [->|Hne]; simpl.
  { split; [split; auto|auto]. }
  fold (indexOf o allowedOrigins). unfold indexOf.
  destruct (Z.eqb_spec (indexOf_from 0 o allowedOrigins) (-1)) as [Heq|Hin].
  - apply indexOf_from_absent in Heq; [|done]. split; [|auto]. split; [done|].
    intros [|[[= ->]|(o' & [= <-] & Hin)]]; done.
  - split; [|auto]. split; [|done]. intros _. right. right. exists o.
    split; [done|]. destruct (decide (o ∈ allowedOrigins)) as [|Hout]; [done|].
    by apply (indexOf_from_absent o allowedOrigins 0) in Hout.
Qed.

(** ** multer, for any field *)

Section AnyField.
Variable filter : Multer.Part -> Multer.Verdict.
Variable naming : Multer.Part -> string.

(** What the intake lets through: no more parts than the field allows,
    all of them in the field and accepted by the filter, each stored
    under the name the storage engine gives it. *)
Lemma intake_passes (name : string) (parts : list Multer.Part) (left : nat)
  (files : list Multer.File) :
  Multer.intake filter naming name left parts = Multer.Next files ->
  length parts <= left /\
  Forall (fun p => Multer.fieldname p = name /\ filter p = Multer.Accept)
    parts /\
  files = (fun p => {| Multer.part := p; Multer.filename := naming p |})
            <$> parts.
Proof.
  revert left files.
  induction parts as [|p parts IH]; intros left files Hin; simpl in Hin.
  - injection Hin as <-. split; [simpl; lia|]. by split.
  - destruct (String.eqb_spec (Multer.fieldname p) name) as [Hname|];
      simpl in Hin; [|discriminate].
    destruct left as [|left]; [discriminate|].
    destruct (filter p) eqn:Hfilter; [|discriminate].
    destruct (Multer.intake _ _ _ left parts) as [files'|] eqn:Hrest;
      [|discriminate].
    injection Hin as <-. destruct (IH _ _ Hrest) as (Hlen & Hall & ->).
    simpl. split; [lia|]. split; [|done]. by constructor.
Qed.

Lemma intake_too_many (name : string) (parts : list Multer.Part) (left : nat) :
  left < length parts ->
  exists e, Multer.intake filter naming name left parts = Multer.Abort e.
Proof.
  intros Hlen.
  destruct (Multer.intake filter naming name left parts) as [files|e]
    eqn:Hin; [|by eexists].
  apply intake_passes in Hin as [Hle _]. lia.
Qed.

End AnyField.

(** X2.  [upload.array("images", 50)] passes a request on to its handler
    exactly when every file part comes in the field [images], is accepted
    by the file filter, and there are at most 50 of them; the handler
    then sees the stored files in the order of the parts.  Otherwise the
    request is aborted. *)
Theorem upload_array_passes_iff (multipart : option (list Multer.Part)) :
  let parts := default [] multipart in
  (forallb accepted parts && (length parts <=? 50)%nat = true ->
   upload_array "images" 50 multipart
   = Multer.Next (fmap (M:=option) (fmap (M:=list) stored) multipart)) /\
  (forallb accepted parts && (length parts <=? 50)%nat = false ->
   exists e, upload_array "images" 50 multipart = Multer.Abort e).
Proof.
  intros parts. subst parts. unfold upload_array, Multer.array.
  destruct multipart as [parts|]; simpl; [|by split].
  split.
  - intros [Hall Hlen%Nat.leb_le]%andb_prop. by rewrite intake_accepted.
  - intros Hfail.
    destruct (Multer.intake _ _ _ 50 parts) as [files|e] eqn:Hin;
      [|by eexists].
    apply intake_next in Hin as (Hall & Hlen%Nat.leb_le & _).
    by rewrite Hall, Hlen in Hfail.
Qed.

(** X3.  [POST /api/data] takes at most one file.  With no part the
    record is persisted with a [null] image; with exactly one part, the record is persisted with the path of the stored file when
    the part comes in the field [image] and the file filter accepts it,
    and the request is aborted with nothing persisted otherwise; with two
    parts or more the request is always aborted with nothing
    persisted. *)
Theorem post_api_data_one_file (req : Request) (db : Db) :
  match attached req with
  | [] =>
      exists record,
        post_api_data req db
        = (Store.save_data record db, Json 201 (ok_data record)) /\
        Data.imageUrl record = Some JNull
  | [p] =>
      match String.eqb (Multer.fieldname p) "image", fileFilter p with
      | true, Multer.Accept =>
          exists record,
            post_api_data req db
            = (Store.save_data record db, Json 201 (ok_data record)) /\
            Data.imageUrl record
            = Some (JStr ("/uploads/" +:+ storage_filename p))
      | _, _ => exists e, post_api_data req db = (db, Unhandled e)
      end
  | _ :: _ :: _ => exists e, post_api_data req db = (db, Unhandled e)
  end.
Proof.
  unfold attached, post_api_data, upload_single, Multer.single.
  destruct (multipart req) as [[|p [|q parts]]|]; simpl; try by eexists.
  - destruct (String.eqb (Multer.fieldname p) "image"); simpl;
      [|by eexists].
    destruct (fileFilter p); by eexists.
  - destruct (intake_too_many fileFilter storage_filename "image"
                (p :: q :: parts) 1) as [e He]; [simpl; lia|].
    simpl in He. rewrite He. by eexists.
Qed.

(** ** Creating a product: all or nothing *)

Section CreateOutcome.
Context `{P : Platform}.

Lemma to_number_required (o : option string) (v : jsval) :
  Cast.to_number o = Some v ->
  required_number v = true ->
  match o with
  | Some s => negb (String.eqb s "") && numeric s
  | None => false
  end = true.
Proof.
  destruct o as [s|]; [|by intros [= <-]]. unfold Cast.to_number, numeric.
  destruct (String.eqb s ""); [by intros [= <-]|]. simpl.
  by destruct (PrimFloat.is_nan (Number_of_string s)).
Qed.

Lemma required_string_text (o : option string) :
  required_string (text o) = true ->
  match o with
  | Some s => negb (String.eqb s "")
  | None => false
  end = true.
Proof. by destruct o. Qed.

(** A document that is created and passes validation comes from a
    creatable request. *)
Lemma create_valid_creatable (req : Request) (id : ObjectId)
  (images : list string) (product : Product.doc) :
  Product.create id (now req) (product_init images req) = Some product ->
  Product.validate product = true ->
  creatable req = true.
Proof.
  unfold Product.create, product_init. simpl. intros Hcreate Hvalid.
  destruct (Cast.to_number (body req !! "new_price")) as [price|] eqn:Hnew;
    [|done].
  destruct (Cast.to_number (body req !! "old_price")) as [previous|] eqn:Hold;
    [|done].
  destruct (Cast.to_boolean (available_or_true req)) as [flag|] eqn:Hflag;
    [|done].
  simpl in Hcreate. injection Hcreate as <-.
  unfold Product.validate in Hvalid. simpl in Hvalid.
  repeat (apply andb_prop in Hvalid as [Hvalid ?]).
  unfold creatable. repeat (apply andb_true_intro; split).
  - unfold Cast.to_trimmed in Hvalid.
    apply required_string_text in Hvalid. by destruct (body req !! "name").
  - by apply required_string_text.
  - by eapply to_number_required.
  - by apply required_string_text.
  - by eapply to_number_Some.
  - by eapply to_boolean_Some.
Qed.

Lemma post_products_handler_refuses (files : option (list Multer.File))
  (req : Request) (db : Db) :
  creatable req = false ->
  post_products_handler files req db
  = (db, Json 500 (failure "Something went wrong")).
Proof.
  intros Hno. unfold post_products_handler. cbv zeta.
  destruct (Product.create _ _ _) as [product|] eqn:Hcreate; [|done].
  unfold Store.save_product.
  destruct (Product.validate product) eqn:Hvalid; [|done].
  by rewrite (create_valid_creatable _ _ _ _ Hcreate Hvalid) in Hno.
Qed.

(** X4.  [POST /products] persists all or nothing.  It is answered 201
    exactly when the upload passes and the text fields pass the casts and
    the required validators of the schema; the product is then appended
    to the catalog and no other collection changes.  In every other case
    the database stays as it was and the status is 500. *)
Theorem post_products_all_or_nothing (req : Request) (db : Db) :
  let passes :=
    forallb accepted (attached req) && (length (attached req) <=? 50)%nat &&
    creatable req in
  (passes = true ->
   exists product,
     post_products req db
     = ({| datas := datas db;
           products := products db ++ [product];
           users := users db;
           next_id := S (next_id db) |},
        Json 201 (ok_product product))) /\
  (passes = false ->
   (post_products req db).1 = db /\
   status_of (post_products req db).2 = 500).
Proof.
  intros passes. subst passes. unfold post_products, attached.
  destruct (upload_array_passes_iff (multipart req)) as [Hpass Hfail].
  cbv zeta in Hpass, Hfail.
  destruct (forallb accepted (default [] (multipart req)) &&
            (length (default [] (multipart req)) <=? 50)%nat) eqn:Hup;
    simpl.
  - rewrite (Hpass eq_refl). split.
    + intros Hok.
      destruct (create_creatable req (next_id db)
                  (match fmap (M:=option) (fmap (M:=list) stored)
                           (multipart req) with
                   | Some fs => upload_path <$> fs
                   | None => []
                   end) Hok)
        as (product & Hcreate & Hvalid & Hid & _).
      { destruct (multipart req); [apply upload_paths_required|done]. }
      exists product. unfold post_products_handler.
      cbv zeta. rewrite Hcreate. unfold Store.save_product.
      by rewrite Hvalid.
    + intros Hno. by rewrite post_products_handler_refuses.
  - split; [done|]. intros _. destruct (Hfail eq_refl) as [e ->]. done.
Qed.

End CreateOutcome.

(** ** Updating and deleting a product *)

(** Replacing the document found for an id by one that agrees with it
    under [g] leaves the list of [g] as it was. *)
Lemma fmap_replace_first {A} (g : Product.doc -> A) (id : ObjectId)
  (p p' : Product.doc) (l : list Product.doc) :
  Store.findById id l = Some p ->
  g p' = g p ->
  g <$> Store.replace_first id (fun _ => p') l = g <$> l.
Proof.
  unfold Store.findById. intros Hfind Hg.
  induction l as [|q l IH]; [done|]. simpl in *.
  destruct (Nat.eqb (Product._id q) id); simpl.
  - injection Hfind as ->. by rewrite Hg.
  - f_equal. by apply IH.
Qed.

Lemma length_replace_first (id : ObjectId) (f : Product.doc -> Product.doc)
  (l : list Product.doc) :
  length (Store.replace_first id f l) = length l.
Proof.
  induction l as [|q l IH]; [done|]. simpl.
  destruct (Nat.eqb (Product._id q) id); simpl; by f_equal.
Qed.

Lemma findById_None (id : ObjectId) (l : list Product.doc) :
  Store.findById id l = None <-> id ∉ Product._id <$> l.
Proof.
  unfold Store.findById. induction l as [|q l IH]; simpl.
  - split; [intros _; apply not_elem_of_nil|done].
  - rewrite not_elem_of_cons. destruct (Nat.eqb_spec (Product._id q) id).
    + split; [done|]. by intros [].
    + rewrite IH. split; [by split|by intros []].
Qed.

Lemma findById_remove_first_ne (id id' : ObjectId) (l : list Product.doc) :
  id' <> id ->
  Store.findById id' (Store.remove_first id l) = Store.findById id' l.
Proof.
  intros Hne. unfold Store.findById. induction l as [|q l IH]; [done|].
  simpl. destruct (Nat.eqb_spec (Product._id q) id) as [Hq|Hq]; simpl.
  - rewrite Hq. by destruct (Nat.eqb_spec id id').
  - by rewrite IH.
Qed.

Lemma length_remove_first (id : ObjectId) (p : Product.doc)
  (l : list Product.doc) :
  Store.findById id l = Some p ->
  S (length (Store.remove_first id l)) = length l.
Proof.
  unfold Store.findById. induction l as [|q l IH]; [done|]. simpl.
  destruct (Nat.eqb (Product._id q) id); simpl; [done|].
  intros Hfind. f_equal. by apply IH.
Qed.

(** What is left after removing the first document with an id is a
    sublist of what was there. *)
Lemma remove_first_sublist (id : ObjectId) (l : list Product.doc) :
  Store.remove_first id l `sublist_of` l.
Proof.
  induction l as [|q l IH]; [done|]. simpl.
  destruct (Nat.eqb (Product._id q) id).
  - by apply sublist_cons.
  - by apply sublist_skip.
Qed.

(** With distinct ids, the removed id is gone. *)
Lemma findById_remove_first (id : ObjectId) (l : list Product.doc) :
  NoDup (Product._id <$> l) ->
  Store.findById id (Store.remove_first id l) = None.
Proof.
  intros Hnodup. apply findById_None.
  induction l as [|q l IH]; [apply not_elem_of_nil|]. simpl in *.
  apply NoDup_cons in Hnodup as [Hq Hl].
  destruct (Nat.eqb_spec (Product._id q) id) as [<-|Hne]; [done|].
  simpl. rewrite not_elem_of_cons. split; [done|by apply IH].
Qed.

Lemma remove_first_snoc (p : Product.doc) (l : list Product.doc) :
  Product._id p ∉ Product._id <$> l ->
  Store.remove_first (Product._id p) (l ++ [p]) = l.
Proof.
  induction l as [|q l IH]; simpl.
  - by rewrite Nat.eqb_refl.
  - rewrite not_elem_of_cons. intros [Hne Hrest].
    destruct (Nat.eqb_spec (Product._id q) (Product._id p)); [done|].
    f_equal. by apply IH.
Qed.

Lemma findById_snoc (p : Product.doc) (l : list Product.doc) :
  Product._id p ∉ Product._id <$> l ->
  Store.findById (Product._id p) (l ++ [p]) = Some p.
Proof.
  unfold Store.findById. induction l as [|q l IH]; simpl.
  - by rewrite Nat.eqb_refl.
  - rewrite not_elem_of_cons. intros [Hne Hrest].
    destruct (Nat.eqb_spec (Product._id q) (Product._id p)); [done|].
    by apply IH.
Qed.

Section UpdateOutcome.
Context `{P : Platform}.
Variable policy : undefined_in_update.

(** X5.  [PUT /products/:id] never adds, removes or renumbers a product
    and never touches another collection: the ids and the creation times
    of the catalog, in their order, the records and the users are the
    same after it as before.  When no product has the id it is not
    answered 200 and the database stays as it was. *)
Theorem put_products_keeps_catalog (req : Request) (db : Db) :
  let after := (put_products policy req db).1 in
  Product._id <$> products after = Product._id <$> products db /\
  Product.createdAt <$> products after = Product.createdAt <$> products db /\
  datas after = datas db /\ users after = users db /\
  (Store.findById (params_id req) (products db) = None ->
   after = db /\ status_of (put_products policy req db).2 <> 200).
Proof.
  intros after. subst after.
  unfold put_products, put_products_handler, findByIdAndUpdate.
  destruct (upload_array "images" 50 (multipart req)) as [files|e];
    [|by repeat split].
  destruct (Product.castUpdate (updatedData files req)) as [c|];
    [|by repeat split].
  destruct (Store.findById (params_id req) (products db)) as [p|] eqn:Hfind;
    [|by repeat split].
  simpl. split; [by apply (fmap_replace_first _ _ p)|].
  split; [by apply (fmap_replace_first _ _ p)|]. by repeat split.
Qed.

(** X6.  On an existing product, [PUT /products/:id] leaves the stored
    [data] as it was when the request has no [data] text or an empty
    one; with a non-empty text and status 200 the stored [data] is
    replaced as a whole, by the parsed value when the text is JSON and by
    the empty object when it is not. *)
Theorem update_data (req : Request) (db : Db) (p : Product.doc) :
  Store.findById (params_id req) (products db) = Some p ->
  let after := put_products policy req db in
  exists p',
    Store.findById (params_id req) (products after.1) = Some p' /\
    (truthy (body req !! "data") = false ->
     Product.data p' = Product.data p) /\
    (forall s,
       body req !! "data" = Some s -> s <> "" ->
       status_of after.2 = 200 ->
       (forall v, JSON_parse s = Some v -> Product.data p' = Some v) /\
       (JSON_parse s = None -> Product.data p' = Some (JObj []))).
Proof.
  intros Hfind after. subst after.
  destruct (decide (status_of (put_products policy req db).2 = 200))
    as [Hok|Hfail].
  2:{ rewrite (put_products_failure policy req db Hfail).
      exists p. by repeat split. }
  revert Hok. unfold put_products.
  destruct (upload_array "images" 50 (multipart req)) as [files|e];
    [|done].
  unfold put_products_handler, findByIdAndUpdate. rewrite Hfind.
  destruct (Product.castUpdate (updatedData files req)) as [c|] eqn:Hcast;
    [|simpl; intros; lia].
  intros _. cbn [fst snd Store.with_products products].
  exists (Product.apply policy (now req) c p).
  split.
  { apply (findById_replace_first _ p); [done|].
    by apply findById_id in Hfind. }
  apply castUpdate_keys in Hcast as [_ Hdata].
  cbn [Product.apply Product.data]. rewrite Hdata.
  unfold updatedData. cbn [Product.set_data]. split.
  - destruct (body req !! "data") as [s|]; [|done]. simpl.
    by intros ->%negb_false_iff.
  - intros s -> Hne _. simpl.
    destruct (String.eqb_spec s "") as [|_]; [done|]. simpl.
    unfold parse_or_empty. split; [intros v Hv|intros Hv]; by rewrite Hv.
Qed.

End UpdateOutcome.

(** X7.  [DELETE /products/:id] on an id a product has is answered 200
    with that product as it was stored, and removes exactly it: the
    catalog is one shorter, what is left is in the order it was in, every
    other id is found as before, the other collections are untouched,
    and, the ids being distinct, the id is found no more. *)
Theorem delete_products_removes (req : Request) (db : Db) (p : Product.doc) :
  Store.findById (params_id req) (products db) = Some p ->
  exists db',
    delete_products req db = (db', Json 200 (ok_product p)) /\
    S (length (products db')) = length (products db) /\
    products db' `sublist_of` products db /\
    (forall id, id <> params_id req ->
       Store.findById id (products db') = Store.findById id (products db)) /\
    datas db' = datas db /\ users db' = users db /\
    (NoDup (Product._id <$> products db) ->
     Store.findById (params_id req) (products db') = None).
Proof.
  intros Hfind. unfold delete_products. rewrite Hfind.
  eexists. split; [reflexivity|]. simpl.
  split; [by apply (length_remove_first _ p)|].
  split; [apply remove_first_sublist|].
  split; [intros id Hne; by apply findById_remove_first_ne|].
  do 2 (split; [done|]). apply findById_remove_first.
Qed.

Section CreateDelete.
Context `{P : Platform}.

(** What a creation answered 201 has done. *)
Lemma post_products_created (req : Request) (db db1 : Db)
  (product : Product.doc) :
  post_products req db = (db1, Json 201 (ok_product product)) ->
  db1 = {| datas := datas db;
           products := products db ++ [product];
           users := users db;
           next_id := S (next_id db) |} /\
  Product._id product = next_id db.
Proof.
  unfold post_products, post_products_handler, Store.save_product.
  destruct (upload_array "images" 50 (multipart req)) as [files|e]; [|done].
  cbv zeta. destruct (Product.create _ _ _) as [created|] eqn:Hcreate;
    [|done].
  destruct (Product.validate created); [|done]. intros [= <- <-].
  split; [done|]. unfold Product.create, product_init in Hcreate.
  simpl in Hcreate.
  destruct (Cast.to_number (body req !! "new_price")); [|done].
  destruct (Cast.to_number (body req !! "old_price")); [|done].
  destruct (Cast.to_boolean (available_or_true req)); [|done].
  simpl in Hcreate. by injection Hcreate as <-.
Qed.

(** X8.  Creating a product and then deleting the id it was given
    returns the product as it was created and leaves the catalog as it
    was before the creation, as long as no stored product has an id the
    database has yet to hand out. *)
Theorem create_then_delete (req deletion : Request) (db db1 : Db)
  (product : Product.doc) :
  Forall (fun q => Product._id q < next_id db) (products db) ->
  post_products req db = (db1, Json 201 (ok_product product)) ->
  params_id deletion = Product._id product ->
  exists db2,
    delete_products deletion db1 = (db2, Json 200 (ok_product product)) /\
    products db2 = products db /\ datas db2 = datas db /\
    users db2 = users db.
Proof.
  intros Hbelow Hpost Hid.
  assert (db1 = {| datas := datas db;
                   products := products db ++ [product];
                   users := users db;
                   next_id := S (next_id db) |} /\
          Product._id product = next_id db) as [-> Hnew].
  { by apply (post_products_created req). }
  assert (Product._id product ∉ Product._id <$> products db) as Hfresh.
  { rewrite Hnew. intros (q & Hq & Hin)%list_elem_of_fmap.
    rewrite Forall_forall in Hbelow. apply Hbelow in Hin. lia. }
  unfold delete_products. rewrite Hid. cbn [products].
  rewrite (findById_snoc _ _ Hfresh). eexists. split; [reflexivity|].
  simpl. by rewrite (remove_first_snoc _ _ Hfresh).
Qed.

End CreateDelete.

(** ** What every route keeps *)

Lemma well_numbered_sub (db db' : Db) :
  well_numbered db ->
  ids db' `sublist_of` ids db ->
  next_id db <= next_id db' ->
  well_numbered db'.
Proof.
  intros [Hnodup Hbelow] Hsub Hnext. split.
  - by eapply sublist_NoDup.
  - rewrite Forall_forall in *. intros id Hin.
    eapply elem_of_sublist in Hin; [|done]. apply Hbelow in Hin. lia.
Qed.

Lemma well_numbered_add (db db' : Db) :
  well_numbered db ->
  ids db' ≡ₚ next_id db :: ids db ->
  next_id db' = S (next_id db) ->
  well_numbered db'.
Proof.
  intros [Hnodup Hbelow] Hperm Hnext. unfold well_numbered.
  rewrite Hperm, Hnext. split.
  - apply NoDup_cons. split; [|done]. rewrite Forall_forall in Hbelow.
    intros Hin%Hbelow. lia.
  - constructor; [lia|]. eapply Forall_impl; [done|]. simpl. lia.
Qed.

Lemma ids_replace_first (db : Db) (id : ObjectId) (p p' : Product.doc) :
  Store.findById id (products db) = Some p ->
  Product._id p' = Product._id p ->
  ids (Store.with_products
         (Store.replace_first id (fun _ => p') (products db)) db)
  = ids db.
Proof.
  intros Hfind Hid. unfold ids. simpl.
  by rewrite (fmap_replace_first _ _ p).
Qed.

Lemma ids_remove_first (db : Db) (id : ObjectId) :
  ids (Store.with_products (Store.remove_first id (products db)) db)
  `sublist_of` ids db.
Proof.
  unfold ids. simpl. apply sublist_app; [done|]. apply sublist_app; [|done].
  apply fmap_sublist, remove_first_sublist.
Qed.

Section Invariants.
Context `{P : Platform}.
Variable policy : undefined_in_update.

(** Every route keeps the numbering of the documents. *)
Lemma app_well_numbered (route : Route) (req : Request) (db : Db) :
  well_numbered db -> well_numbered (app policy route req db).1.
Proof.
  intros Hwell. destruct route; simpl; try done.
  - unfold post_api_data. destruct (upload_single _ _); [|done]. simpl.
    eapply well_numbered_add; [done| |done]. unfold ids. simpl.
    rewrite fmap_app. rewrite <- ?app_assoc. simpl.
    rewrite <- ?Permutation_middle. done.
  - unfold post_products, post_products_handler, Store.save_product.
    destruct (upload_array _ _ _); [|done]. cbv zeta.
    destruct (Product.create _ _ _) as [created|] eqn:Hcreate; [|done].
    destruct (Product.validate created); [|done]. simpl.
    eapply well_numbered_add; [done| |done]. unfold ids. simpl.
    rewrite fmap_app. rewrite <- ?app_assoc. simpl.
    rewrite <- ?Permutation_middle.
    replace (Product._id created) with (next_id db); [done|].
    unfold Product.create, product_init in Hcreate.
    simpl in Hcreate.
    destruct (Cast.to_number (body req !! "new_price")); [|done].
    destruct (Cast.to_number (body req !! "old_price")); [|done].
    destruct (Cast.to_boolean (available_or_true req)); [|done].
    simpl in Hcreate. by injection Hcreate as <-.
  - unfold delete_products. destruct (Store.findById _ _); [|done]. simpl.
    eapply well_numbered_sub; [done|apply ids_remove_first|done].
  - unfold put_products, put_products_handler, findByIdAndUpdate.
    destruct (upload_array _ _ _); [|done].
    destruct (Product.castUpdate _); [|done].
    destruct (Store.findById _ _) as [p|] eqn:Hfind; [|done]. simpl.
    eapply well_numbered_sub; [done| |done].
    by rewrite (ids_replace_first _ _ p).
  - unfold post_signup. destruct (Store.findOne_email _ _); [done|].
    destruct (body req !! "password"); [|done]. simpl.
    eapply well_numbered_add; [done| |done]. unfold ids. simpl.
    rewrite fmap_app. rewrite <- ?app_assoc. simpl.
    rewrite <- ?Permutation_middle. by rewrite app_nil_r.
  - unfold post_login. by repeat case_match.
Qed.

Lemma run_well_numbered (requests : list (Route * Request)) (db : Db) :
  well_numbered db -> well_numbered (run policy requests db).
Proof.
  revert db. induction requests as [|[route req] requests IH]; intros db H.
  - done.
  - simpl. by apply IH, app_well_numbered.
Qed.

(** Starting from the empty database, the documents stay numbered
    apart. *)
Lemma reachable_well_numbered (requests : list (Route * Request)) :
  well_numbered (run policy requests empty_db).
Proof.
  apply run_well_numbered. split; [apply NoDup_nil_2|apply Forall_nil_2].
Qed.

(** X9.  Starting from the empty database, after any sequence of
    requests no two users share an email: a sign-up looks the email up
    before it saves, and no route changes the email of a user. *)
Theorem reachable_emails_unique (requests : list (Route * Request)) :
  NoDup (Users.email <$> users (run policy requests empty_db)).
Proof. apply run_emails_unique. apply NoDup_nil_2. Qed.

(** X10.  Each route writes to its own collection only: the records
    change in no route but [POST /api/data], the catalog in none but the
    three product routes that write, the users in none but
    [POST /signup]. *)
Theorem routes_frame (route : Route) (req : Request) (db : Db) :
  let after := (app policy route req db).1 in
  (route <> POST_api_data -> datas after = datas db) /\
  (route <> POST_products -> route <> PUT_products_id ->
   route <> DELETE_products_id -> products after = products db) /\
  (route <> POST_signup -> users after = users db).
Proof.
  intros after. subst after. destruct route; simpl.
  - unfold post_api_data. destruct (upload_single _ _); simpl;
      repeat split; (done || lia).
  - repeat split; (done || lia).
  - unfold post_products, post_products_handler, Store.save_product.
    repeat case_match; simplify_eq; simpl; repeat split; (done || lia).
  - repeat split; (done || lia).
  - unfold delete_products. case_match; simpl; repeat split; (done || lia).
  - unfold put_products, put_products_handler, findByIdAndUpdate.
    repeat case_match; simplify_eq; simpl; repeat split; (done || lia).
  - unfold post_signup.
    repeat case_match; simpl; repeat split; (done || lia).
  - unfold post_login.
    repeat case_match; simpl; repeat split; (done || lia).
Qed.

End Invariants.

(** ** Accounts: the other outcomes *)


Section AccountOutcomes.
Context `{P : Platform}.

(** X11.  A sign-up changes the database only when it is answered 200,
    and then only by appending one user, who carries the name and the
    email of the request.  A
    sign-up with no password is never answered 200: the email is looked
    up first, so it is answered 400 when a user has the email and 500
    with [Server error] when none has. *)
Theorem post_signup_outcomes (req : Request) (db : Db) :
  let after := post_signup req db in
  (status_of after.2 <> 200 -> after.1 = db) /\
  (status_of after.2 = 200 ->
   exists user,
     after.1 = {| datas := datas db;
                  products := products db;
                  users := users db ++ [user];
                  next_id := S (next_id db) |} /\
     Users.name user = body req !! "username" /\
     Users.email user = body req !! "email" /\
     Users.date user = now req) /\
  (body req !! "password" = None ->
   ((exists u, u ∈ users db /\ Users.email u = body req !! "email") ->
    after = (db, Json 400 (failure "Email already exists"))) /\
   ((forall u, u ∈ users db -> Users.email u <> body req !! "email") ->
    after = (db, Json 500 (failure "Server error")))).
Proof.
  intros after. subst after. unfold post_signup. split; [|split].
  - destruct (Store.findOne_email _ _); [done|].
    destruct (body req !! "password"); [|done].
    rewrite issue_token_eq. simpl. done.
  - destruct (Store.findOne_email _ _); [simpl; lia|].
    destruct (body req !! "password"); [|simpl; lia].
    intros _. by eexists.
  - intros ->. split.
    + intros [u ->]%findOne_email_is_Some. done.
    + intros ->%findOne_email_None. done.
Qed.

(** X12.  A login never changes the database, whatever its outcome.
    With no password it is not answered 200: the email is looked up
    first, so it is answered 400 with [Invalid Email] when no user has
    the email and 500 with [Server error] when one has. *)
Theorem post_login_outcomes (req : Request) (db : Db) :
  (post_login req db).1 = db /\
  (body req !! "password" = None ->
   ((forall u, u ∈ users db -> Users.email u <> body req !! "email") ->
    post_login req db = (db, Json 400 (failure "Invalid Email"))) /\
   ((exists u, u ∈ users db /\ Users.email u = body req !! "email") ->
    post_login req db = (db, Json 500 (failure "Server error")))).
Proof.
  unfold post_login. split.
  - by repeat case_match.
  - intros ->. split.
    + intros ->%findOne_email_None. done.
    + intros [u ->]%findOne_email_is_Some. done.
Qed.

Variable policy : undefined_in_update.

(** X13.  Only [POST /signup] and [POST /login] ever send a token, and
    only with status 200.  The token names a user that is stored once
    the request is served, and when the email of the request is a text
    that user has this email; the token is issued at the second the
    request is handled, expires 3600 seconds later and is signed with the
    one key. *)
Theorem token_names_stored_user (route : Route) (req : Request) (db : Db)
  (status : nat) (token : Jwt.token) :
  (app policy route req db).2 = Json status (ok_token token) ->
  status = 200 /\
  (route = POST_signup \/ route = POST_login) /\
  (exists user,
     user ∈ users (app policy route req db).1 /\
     (forall e, body req !! "email" = Some e -> Users.email user = Some e) /\
     Jwt.user_id token = ObjectId_toString (Users._id user)) /\
  Jwt.iat token = (now req `div` 1000)%Z /\
  Jwt.exp token = (Jwt.iat token + 3600)%Z /\
  Jwt.key token = "secret_ecom".
Proof.
  destruct route; simpl.
  - unfold post_api_data. by case_match.
  - done.
  - unfold post_products, post_products_handler. by repeat case_match.
  - done.
  - unfold delete_products. by case_match.
  - unfold put_products, put_products_handler. by repeat case_match.
  - unfold post_signup.
    destruct (Store.findOne_email _ _); [done|].
    destruct (body req !! "password") as [password|]; [|done].
    rewrite issue_token_eq. intros [= <- <-]. simpl.
    split; [done|]. split; [by left|]. split; [|done].
    exists (new_user req db (bcrypt_hash password 10 (salt req))).
    split; [apply elem_of_app; right; by left|]. split; [|done].
    by intros e <-.
  - unfold post_login.
    destruct (Store.findOne_email _ _) as [user|] eqn:Hfind; [|done].
    destruct (body req !! "password") as [password|]; [|done].
    destruct (bcrypt_compare _ _); [|done].
    rewrite issue_token_eq. intros [= <- <-]. simpl.
    apply findOne_email_Some in Hfind as [Hin Hemail].
    split; [done|]. split; [by right|]. split; [|done]. exists user.
    split; [done|]. split; [|done]. intros e <-. done.
Qed.


End AccountOutcomes.

(** ** The names of stored files *)

Lemma chars_app (a b : string) :
  JsString.chars (a +:+ b) = JsString.chars a ++ JsString.chars b.
Proof.
  unfold JsString.chars. induction a as [|c a IH]; [done|].
  simpl. by rewrite IH.
Qed.

Lemma of_chars_chars (s : string) : JsString.of_chars (JsString.chars s) = s.
Proof. apply string_of_list_ascii_of_string. Qed.

Lemma chars_of_chars (l : list ascii) :
  JsString.chars (JsString.of_chars l) = l.
Proof. apply list_ascii_of_string_of_list_ascii. Qed.

Lemma pretty_N_char_plain (x : N) :
  pretty_N_char x <> Path.dot /\ pretty_N_char x <> Path.slash.
Proof. unfold pretty_N_char. by repeat case_match. Qed.

(** The decimal digits of a number, put before a text. *)
Lemma pretty_N_go_plain (x : N) (s : string) :
  exists d,
    JsString.chars (pretty_N_go x s) = d ++ JsString.chars s /\
    plain d /\ ((0 < x)%N -> d <> []).
Proof.
  revert s. induction (N.lt_wf_0 x) as [x _ IH]; intros s.
  destruct (decide (x = 0%N)) as [->|Hpos].
  - exists []. rewrite pretty_N_go_0. split; [done|]. split; [|lia].
    apply Forall_nil_2.
  - rewrite pretty_N_go_step by lia.
    destruct (IH (x `div` 10)%N) with
      (s := String (pretty_N_char (x `mod` 10)) s) as (d & Hd & Hplain & _).
    { apply N.div_lt; lia. }
    exists (d ++ [pretty_N_char (x `mod` 10)%N]). rewrite Hd.
    split; [by rewrite <- app_assoc|]. split.
    + apply Forall_app. split; [done|].
      apply Forall_singleton, pretty_N_char_plain.
    + intros _. by destruct d.
Qed.

Lemma pretty_N_plain (x : N) :
  plain (JsString.chars (pretty x)) /\ JsString.chars (pretty x) <> [].
Proof.
  unfold pretty, pretty_N. case_decide as Hx.
  - split; [|done]. by apply Forall_singleton.
  - destruct (pretty_N_go_plain x "") as (d & -> & Hplain & Hne).
    simpl. rewrite app_nil_r. split; [done|]. apply Hne. lia.
Qed.

(** A time stamp is written with digits and perhaps a sign: it has no
    dot and no separator, and it is not empty. *)
Lemma pretty_Z_plain (z : Z) :
  plain (JsString.chars (pretty z)) /\ JsString.chars (pretty z) <> [].
Proof.
  unfold pretty, pretty_Z. destruct z as [|x|x].
  - split; [|done]. by apply Forall_singleton.
  - apply (pretty_N_plain (N.pos x)).
  - rewrite chars_app. destruct (pretty_N_plain (N.pos x)) as [Hplain _].
    split; [|done]. apply Forall_app. split; [|done].
    by apply Forall_singleton.
Qed.

Lemma until_plain (stop : ascii) (l : list ascii) :
  Forall (fun c => c <> stop) (Path.until stop l).
Proof.
  induction l as [|c l IH]; simpl; [done|].
  destruct (Ascii.eqb_spec c stop); [done|]. by constructor.
Qed.

Lemma until_sublist (stop : ascii) (l : list ascii) :
  Path.until stop l `sublist_of` l.
Proof.
  induction l as [|c l IH]; simpl; [done|].
  destruct (Ascii.eqb c stop); [apply sublist_nil_l|by apply sublist_skip].
Qed.

Lemma until_all (stop : ascii) (l : list ascii) :
  Forall (fun c => c <> stop) l -> Path.until stop l = l.
Proof.
  induction 1 as [|c l Hc _ IH]; simpl; [done|].
  destruct (Ascii.eqb_spec c stop); [done|]. by rewrite IH.
Qed.

Lemma until_app (stop : ascii) (l rest : list ascii) :
  Forall (fun c => c <> stop) l ->
  Path.until stop (l ++ stop :: rest) = l.
Proof.
  induction 1 as [|c l Hc _ IH]; simpl.
  - by rewrite Ascii.eqb_refl.
  - destruct (Ascii.eqb_spec c stop); [done|]. by rewrite IH.
Qed.

Lemma after_none (stop : ascii) (l : list ascii) :
  Forall (fun c => c <> stop) l -> Path.after stop l = None.
Proof.
  induction 1 as [|c l Hc _ IH]; simpl; [done|].
  by destruct (Ascii.eqb_spec c stop).
Qed.

Lemma after_app (stop : ascii) (l rest : list ascii) :
  Forall (fun c => c <> stop) l ->
  Path.after stop (l ++ stop :: rest) = Some rest.
Proof.
  induction 1 as [|c l Hc _ IH]; simpl.
  - by rewrite Ascii.eqb_refl.
  - by destruct (Ascii.eqb_spec c stop).
Qed.

Lemma drop_slashes_all (l : list ascii) :
  Forall (fun c => c <> Path.slash) l -> Path.drop_slashes l = l.
Proof.
  destruct 1 as [|c l Hc _]; simpl; [done|].
  by destruct (Ascii.eqb_spec c Path.slash).
Qed.

Lemma plain_no_dot (l : list ascii) :
  plain l -> Forall (fun c => c <> Path.dot) l.
Proof. intros H. eapply Forall_impl; [exact H|]. by intros c []. Qed.

Lemma plain_no_slash (l : list ascii) :
  plain l -> Forall (fun c => c <> Path.slash) l.
Proof. intros H. eapply Forall_impl; [exact H|]. by intros c []. Qed.

Lemma plain_rev (l : list ascii) : plain l -> plain (rev l).
Proof. apply List.Forall_rev. Qed.

(** An extension is empty, or a dot followed by a run with no dot and no
    separator. *)
Lemma extname_shape (p : string) :
  Path.extname p = "" \/
  exists r, Path.extname p = JsString.of_chars (Path.dot :: r) /\ plain r.
Proof.
  unfold Path.extname. cbv zeta.
  set (b := Path.rev_basename p).
  assert (plain (Path.until Path.dot b)) as Hext.
  { apply Forall_forall. intros c Hc. split.
    - pose proof (until_plain Path.dot b) as Hdot.
      rewrite Forall_forall in Hdot. by apply Hdot.
    - pose proof (until_plain Path.slash
                    (Path.drop_slashes (rev (JsString.chars p)))) as Hslash.
      rewrite Forall_forall in Hslash. apply Hslash.
      eapply elem_of_sublist; [done|apply until_sublist]. }
  destruct (Path.after Path.dot b) as [[|c before]|]; [by left| |by left].
  destruct (Path.until Path.dot b) as [|e ext] eqn:Huntil.
  - destruct before as [|c' before].
    + destruct (Ascii.eqb c Path.dot); [by left|].
      right. exists []. split; [done|apply Forall_nil_2].
    + right. exists []. split; [done|apply Forall_nil_2].
  - right. exists (rev (e :: ext)). split; [done|]. by apply plain_rev.
Qed.

(** The extension of a plain, non-empty run followed by an extension is
    that extension. *)
Lemma extname_plain_app (d e : list ascii) :
  plain d -> d <> [] ->
  (e = [] \/ exists r, e = Path.dot :: r /\ plain r) ->
  Path.extname (JsString.of_chars (d ++ e)) = JsString.of_chars e.
Proof.
  intros Hd Hne He. unfold Path.extname, Path.rev_basename. cbv zeta.
  rewrite chars_of_chars, rev_app_distr.
  destruct He as [->|(r & -> & Hr)]; simpl.
  - apply plain_rev in Hd.
    rewrite drop_slashes_all by by apply plain_no_slash.
    rewrite until_all by by apply plain_no_slash.
    by rewrite after_none by by apply plain_no_dot.
  - rewrite <- app_assoc. simpl.
    apply plain_rev in Hd. apply plain_rev in Hr as Hrr.
    assert (Forall (fun c => c <> Path.slash)
              (rev r ++ Path.dot :: rev d)) as Hslash.
    { apply Forall_app. split; [by apply plain_no_slash|].
      constructor; [done|by apply plain_no_slash]. }
    rewrite drop_slashes_all, until_all by done.
    rewrite after_app, until_app by by apply plain_no_dot.
    assert (rev d <> []) as Hrev.
    { intros Hnil. apply Hne. by rewrite <- (rev_involutive d), Hnil. }
    destruct (rev d) as [|c [|c' before]] eqn:Hrd; [done| |].
    + destruct (rev r) as [|x ext] eqn:Hrr'.
      * assert (r = []) as ->.
        { by rewrite <- (rev_involutive r), Hrr'. }
        apply Forall_inv in Hd as [Hc _].
        by destruct (Ascii.eqb_spec c Path.dot).
      * by rewrite <- Hrr', rev_involutive.
    + destruct (rev r) as [|x ext] eqn:Hrr'.
      * assert (r = []) as ->; [|done].
        by rewrite <- (rev_involutive r), Hrr'.
      * by rewrite <- Hrr', rev_involutive.
Qed.

Lemma storage_filename_chars (p : Multer.Part) :
  storage_filename p
  = JsString.of_chars
      (JsString.chars (pretty (Multer.clock p)) ++
       JsString.chars (Path.extname (Multer.originalname p))).
Proof.
  unfold storage_filename. by rewrite <- chars_app, of_chars_chars.
Qed.

Lemma extname_chars_shape (p : string) :
  JsString.chars (Path.extname p) = [] \/
  exists r, JsString.chars (Path.extname p) = Path.dot :: r /\ plain r.
Proof.
  destruct (extname_shape p) as [->|(r & -> & Hr)]; [by left|].
  right. exists r. by rewrite chars_of_chars.
Qed.

(** X15.  A stored file keeps the extension of the name it was sent
    under: [path.extname] of the stored name is [path.extname] of the
    original name, so the extension test of the file filter gives the
    same answer on both. *)
Theorem stored_filename_keeps_extension (p : Multer.Part) :
  Path.extname (storage_filename p) = Path.extname (Multer.originalname p) /\
  allowedTypes_test (JsString.toLowerCase (Path.extname (storage_filename p)))
  = allowedTypes_test
      (JsString.toLowerCase (Path.extname (Multer.originalname p))).
Proof.
  assert (Path.extname (storage_filename p)
          = Path.extname (Multer.originalname p)) as ->; [|done].
  rewrite storage_filename_chars.
  destruct (pretty_Z_plain (Multer.clock p)) as [Hplain Hne].
  rewrite extname_plain_app; [apply of_chars_chars|done..|].
  apply extname_chars_shape.
Qed.

(** X16.  Two files get the same stored name exactly when they are named
    at the same millisecond and their original names have the same
    extension; the rest of the original name plays no part. *)
Theorem stored_filenames_collide_iff (p q : Multer.Part) :
  storage_filename p = storage_filename q <->
  Multer.clock p = Multer.clock q /\
  Path.extname (Multer.originalname p) = Path.extname (Multer.originalname q).
Proof.
  split; [|by unfold storage_filename; intros [-> ->]].
  intros Heq.
  assert (forall part,
            Path.until Path.dot (JsString.chars (storage_filename part))
            = JsString.chars (pretty (Multer.clock part))) as Hstamp.
  { intros part. unfold storage_filename. rewrite chars_app.
    destruct (pretty_Z_plain (Multer.clock part)) as [Hplain _].
    destruct (extname_chars_shape (Multer.originalname part))
      as [->|(r & -> & _)].
    - rewrite app_nil_r. by apply until_all, plain_no_dot.
    - by apply until_app, plain_no_dot. }
  assert (pretty (Multer.clock p) = pretty (Multer.clock q)) as Hclock.
  { rewrite <- (of_chars_chars (pretty (Multer.clock p))),
            <- (of_chars_chars (pretty (Multer.clock q))).
    by rewrite <- !Hstamp, Heq. }
  unfold storage_filename in Heq. rewrite Hclock in Heq.
  split; [by apply (inj pretty)|]. by apply (inj (String.app _)) in Heq.
Qed.

Lemma drop_slashes_sublist (l : list ascii) : Path.drop_slashes l `sublist_of` l.
Proof.
  induction l as [|c l IH]; simpl; [done|].
  destruct (Ascii.eqb c Path.slash); [by apply sublist_cons|done].
Qed.

(** A name with no dot in it has no extension. *)
Lemma extname_no_dot_at_all (name : string) :
  Path.dot ∉ JsString.chars name -> Path.extname name = "".
Proof.
  intros Hnone. unfold Path.extname, Path.rev_basename. cbv zeta.
  rewrite after_none; [done|]. apply Forall_forall. intros c Hc ->.
  apply Hnone.
  eapply elem_of_sublist in Hc; [|apply until_sublist].
  eapply elem_of_sublist in Hc; [|apply drop_slashes_sublist].
  apply list_elem_of_In in Hc. apply in_rev in Hc.
  by apply list_elem_of_In.
Qed.

(** X17.  A file whose name has no dot in it, and so no extension, is
    refused by the file filter whatever content type it declares. *)
Theorem no_extension_is_refused (p : Multer.Part) :
  Path.dot ∉ JsString.chars (Multer.originalname p) ->
  fileFilter p = Multer.Refuse "Only images are allowed".
Proof.
  intros Hnone. unfold fileFilter. by rewrite extname_no_dot_at_all.
Qed.


Section CreateFields.
Context `{P : Platform}.

(** X19.  What a creation answered 201 has stored: the name with the
    white space around it removed, the description and the category as
    sent, and the price as a number; an [old_price] that was not sent is
    0, an [available] that was not sent is [true]; when no [data] was
    sent, or an empty one, the product goes to the client without a
    [data]; both time stamps are the time of the request. *)
Theorem create_stores_fields (req : Request) (db db' : Db)
  (product : Product.doc) :
  post_products req db = (db', Json 201 (ok_product product)) ->
  (exists name, body req !! "name" = Some name /\
     Product.name product = Some (JStr (JsString.trim name))) /\
  (exists price, body req !! "new_price" = Some price /\
     Product.new_price product = Some (JNum (Number_of_string price))) /\
  Product.description product = JStr <$> body req !! "description" /\
  Product.category product = JStr <$> body req !! "category" /\
  (body req !! "old_price" = None ->
   Product.old_price product = Some (JNum 0)) /\
  (body req !! "available" = None ->
   Product.available product = Some (JBool true)) /\
  (truthy (body req !! "data") = false ->
   Product.data (Product.toJSON product) = None) /\
  Product.createdAt product = now req /\
  Product.updatedAt product = now req.
Proof.
  unfold post_products, post_products_handler, Store.save_product.
  destruct (upload_array "images" 50 (multipart req)) as [files|e]; [|done].
  cbv zeta. destruct (Product.create _ _ _) as [created|] eqn:Hcreate;
    [|done].
  destruct (Product.validate created) eqn:Hvalid; [|done].
  intros [= _ <-].
  pose proof (create_valid_creatable _ _ _ _ Hcreate Hvalid) as Hok.
  unfold creatable in Hok. repeat (apply andb_prop in Hok as [Hok ?]).
  unfold Product.create, product_init in Hcreate. simpl in Hcreate.
  destruct (body req !! "name") as [name|]; [|done].
  destruct (body req !! "new_price") as [price|] eqn:Hprice; [|done].
  match goal with H : _ && numeric price = true |- _ =>
    apply andb_prop in H as [Hne Hnum] end.
  assert (Cast.to_number (Some price)
          = Some (Some (JNum (Number_of_string price)))) as Hcast.
  { unfold Cast.to_number. unfold numeric in Hnum.
    apply negb_true_iff in Hne, Hnum. by rewrite Hne, Hnum. }
  rewrite Hcast in Hcreate. simpl in Hcreate.
  destruct (Cast.to_number (body req !! "old_price")) as [previous|] eqn:Hold;
    [|done].
  destruct (Cast.to_boolean (available_or_true req)) as [flag|] eqn:Hflag;
    [|done].
  simpl in Hcreate. injection Hcreate as <-. simpl.
  split; [by eexists|]. split; [by eexists|]. do 2 (split; [done|]).
  split.
  { intros Hnone. rewrite Hnone in Hold. by injection Hold as <-. }
  split.
  { intros Hnone. unfold available_or_true in Hflag.
    rewrite Hnone in Hflag. by injection Hflag as <-. }
  split; [|done]. unfold parsedData.
  destruct (body req !! "data") as [s|]; simpl.
  - intros ->. simpl. apply minimize_empty.
  - intros _. apply minimize_empty.
Qed.

End CreateFields.

(** ** The further properties at work on the sample shop *)

Module Running.
Import Sample.

(** An update of the lamp whose [data] is not JSON empties the stored
    [data]. *)
Lemma update_data_lamp :
  let req := request [("data", "{color")] None 0 in
  exists p',
    Store.findById 0 (products (put_products Dropped req shop).1) = Some p' /\
    Product.data p' = Some (JObj []).
Proof.
  intros req.
  destruct (update_data (P:=platform) Dropped req shop _ eq_refl)
    as (p' & Hfind & _ & Hnew).
  exists p'. split; [exact Hfind|].
  destruct (Hnew "{color" ltac:(run) ltac:(discriminate) ltac:(run))
    as [_ Hbad].
  apply Hbad. run.
Defined.

(** Deleting the lamp empties the sample shop. *)
Lemma delete_products_removes_lamp :
  exists db' lamp',
    delete_products (request [] None 0) shop
    = (db', Json 200 (ok_product lamp')) /\
    length (products db') = 0 /\
    Store.findById 0 (products db') = None.
Proof.
  destruct (delete_products_removes (request [] None 0) shop _ eq_refl)
    as (db' & Hdelete & Hlength & _ & _ & _ & _ & Hgone).
  exists db'. eexists. split; [exact Hdelete|]. split.
  - injection Hlength as ->. reflexivity.
  - apply Hgone. apply NoDup_singleton.
Defined.

(** A second lamp is created and deleted again. *)
Lemma create_then_delete_lamp :
  exists product db1 db2,
    post_products (request lamp None 0) shop
    = (db1, Json 201 (ok_product product)) /\
    delete_products (request [] None 1) db1
    = (db2, Json 200 (ok_product product)) /\
    products db2 = products shop.
Proof.
  destruct (post_products (P:=platform) (request lamp None 0) shop)
    as [db1 answer] eqn:Hpost.
  vm_compute in Hpost. injection Hpost as <- <-.
  do 2 eexists.
  edestruct (create_then_delete (P:=platform) (request lamp None 0)
               (request [] None 1) shop)
    as (db2 & Hdelete & Hproducts & _);
    [| run | | exists db2; split; [run|split; [exact Hdelete|exact Hproducts]]].
  - apply Forall_singleton. vm_compute. lia.
  - reflexivity.
Defined.

(** Ada's sign-up token names Ada. *)
Lemma token_names_stored_user_ada :
  exists token user,
    (app Dropped POST_signup (request ada None 0) shop).2
    = Json 200 (ok_token token) /\
    user ∈ users ada_joined /\
    Users.email user = Some "ada@example.org" /\
    Jwt.user_id token = ObjectId_toString (Users._id user).
Proof.
  destruct (token_names_stored_user (P:=platform) Dropped POST_signup
              (request ada None 0) shop 200 _ eq_refl)
    as (_ & _ & (user & Hin & Hemail & Hid) & _).
  do 2 eexists. split; [reflexivity|]. split; [exact Hin|].
  split; [apply Hemail; run|exact Hid].
Defined.


(** A file called [README] is refused even as [image/png]. *)
Lemma no_extension_is_refused_readme :
  fileFilter {| Multer.fieldname := "images";
                Multer.originalname := "README";
                Multer.mimetype := "image/png";
                Multer.clock := 0 |}
  = Multer.Refuse "Only images are allowed".
Proof.
  apply no_extension_is_refused. apply (bool_decide_unpack _). run.
Defined.

(** A chair created with a name and a price only for its optional
    fields gets the defaults. *)
Lemma create_stores_fields_chair :
  let form := [("name", "  Chair "); ("description", "Oak");
               ("new_price", "120"); ("category", "home")] in
  exists product db',
    post_products (request form None 0) shop
    = (db', Json 201 (ok_product product)) /\
    Product.name product = Some (JStr "Chair") /\
    Product.old_price product = Some (JNum 0) /\
    Product.available product = Some (JBool true) /\
    Product.data (Product.toJSON product) = None.
Proof.
  intros form.
  destruct (post_products (P:=platform) (request form None 0) shop)
    as [db' answer] eqn:Hpost.
  vm_compute in Hpost. injection Hpost as <- <-.
  do 2 eexists. split; [reflexivity|].
  edestruct (create_stores_fields (P:=platform) (request form None 0) shop)
    as ((name & Hname & Hstored) & _ & _ & _ & Hold & Havailable & Hdata & _);
    [run|].
  vm_compute in Hname. injection Hname as <-.
  split; [exact Hstored|]. split; [apply Hold; run|].
  split; [apply Havailable; run|apply Hdata; run].
Defined.

End Running.
